(** * nut.js adapters: a shallow embedding of the vision and native facades

    The development follows [src/lib/adapter/vision.adapter.class.ts],
    [src/lib/adapter/native.adapter.class.ts] and the job interface of
    [src/types/tesseract.js/index.d.ts].

    - [Js] is the small run-time model the adapters are written against:
      synchronous completions, deferred values (promises), the object under
      construction ([this]) and the effect monad of a method body.
    - The collaborator interfaces are records of methods acting on the world
      outside the adapters (operating system, engines, file system).
    - [VisionAdapter] and [NativeAdapter] transcribe the two classes method by
      method.
    - [TemplateMatchingFinder] and [TesseractReader] are the two production
      collaborators whose policy the specification describes. *)

From Stdlib Require Import List String ZArith QArith Bool Lia.
From ExtLib Require Import Structures.Monad.
Import ListNotations.
Import MonadNotation.
Local Open Scope monad_scope.
Local Open Scope string_scope.
Local Open Scope list_scope.

Set Implicit Arguments.

(* ===================================================================== *)
(** * Run-time model *)
(* ===================================================================== *)

Module Js.

(** A JavaScript [number].  Every finite double is a rational; NaN and the
    infinities are outside the data model (confidences live in [0,1], sizes
    and delays are finite). *)
Definition number := Q.

(** Modelled from the spec: the kinds of failure of the error-handling
    design; the sources throw and reject with untyped values and name no
    kind.  [TypeError] is the run time's own, raised when a method is invoked
    on [undefined]. *)
Inductive Error : Type :=
| TypeError (msg : string)
| NoMatchFound
| EngineFailure (msg : string)
| OcrFailure (msg : string)
| SinkWriteFailure (msg : string)
| OtherError (msg : string).

(** How a synchronous call of a collaborator ends. *)
Inductive completion (A : Type) : Type :=
| Returns (a : A)
| Throws (e : Error).
Arguments Throws {A} e.

(** A deferred value, represented by the way it eventually settles.
    [Pending] is a deferred value that never settles. *)
Inductive promise (A : Type) : Type :=
| Fulfilled (a : A)
| Rejected (e : Error)
| Pending.
Arguments Rejected {A} e.
Arguments Pending {A}.

(** How the evaluation of a piece of a method body ends.  [Suspended] is a
    body parked for ever at an [await]; only [await] produces it. *)
Inductive outcome (A : Type) : Type :=
| Normal (a : A)
| Throw (e : Error)
| Suspended.
Arguments Throw {A} e.
Arguments Suspended {A}.

(** The effect monad: a state transformer with exceptions. *)
Definition Eff (S A : Type) : Type := S -> outcome A * S.

Definition ret_ {S A} (a : A) : Eff S A := fun s => (Normal a, s).

Definition bind_ {S A B} (m : Eff S A) (k : A -> Eff S B) : Eff S B :=
  fun s =>
    match m s with
    | (Normal a, s') => k a s'
    | (Throw e, s') => (Throw e, s')
    | (Suspended, s') => (Suspended, s')
    end.

#[global] Instance Monad_Eff (S : Type) : Monad (Eff S) :=
  {| ret := @ret_ S; bind := @bind_ S |}.

(** [try { body } catch (e) { handler e }] *)
Definition try_catch {S A} (body : Eff S A) (handler : Error -> Eff S A) : Eff S A :=
  fun s =>
    match body s with
    | (Throw e, s') => handler e s'
    | r => r
    end.

(** [await p] inside an asynchronous body. *)
Definition await_value {S A} (p : promise A) : Eff S A :=
  fun s =>
    match p with
    | Fulfilled a => (Normal a, s)
    | Rejected e => (Throw e, s)
    | Pending => (Suspended, s)
    end.

Definition await {S A} (m : Eff S (promise A)) : Eff S A :=
  p <- m ;; await_value p.

(** ** Promise construction

    The executor of [new Promise(executor)] runs with the settlement cell of
    the promise under construction next to the state of the caller. *)

Definition settle {A} (cell : promise A) (with_ : promise A) : promise A :=
  match cell with
  | Pending => with_
  | _ => cell
  end.

Definition Executor (S R A : Type) : Type := Eff (S * promise R) A.

Definition resolve {S R} (v : R) : Executor S R unit :=
  fun '(s, cell) => (Normal tt, (s, settle cell (Fulfilled v))).

Definition reject {S R} (e : Error) : Executor S R unit :=
  fun '(s, cell) => (Normal tt, (s, settle cell (Rejected e))).

(** Code of the enclosing method used inside the executor. *)
Definition lift {S R A} (m : Eff S A) : Executor S R A :=
  fun '(s, cell) => let '(r, s') := m s in (r, (s', cell)).

(** [new Promise(async (resolve, reject) => { ... })]: the constructor
    returns the promise whatever becomes of the asynchronous executor; an
    executor that throws or stays suspended leaves the cell as it is. *)
Definition new_Promise {S R}
  (executor : (R -> Executor S R unit) -> (Error -> Executor S R unit) -> Executor S R unit)
  : Eff S (promise R) :=
  fun s =>
    let '(_, (s', cell)) := executor resolve reject (s, Pending) in
    (Normal cell, s').

(** [async f(...) { body }] returning a promise: the result adopts the
    returned promise, and a throw of the body becomes a rejection. *)
Definition async {S R} (body : Eff S (promise R)) : Eff S (promise R) :=
  fun s =>
    match body s with
    | (Normal p, s') => (Normal p, s')
    | (Throw e, s') => (Normal (Rejected e), s')
    | (Suspended, s') => (Normal Pending, s')
    end.

(** ** Objects and the world *)

Section Objects.
Context {World : Type}.

(** A method of a collaborator: it acts on the world and returns or throws. *)
Definition Call (A : Type) : Type := World -> completion A * World.

(** The state a method of an adapter runs in: the adapter object itself, the
    world, and the history of assignments to the fields of the object. *)
Record state (Obj Field : Type) : Type := mkState {
  this : Obj;
  world : World;
  assigned : list Field
}.

Definition M (Obj Field A : Type) : Type := Eff (state Obj Field) A.

(** [this.f.m(args)]: read field [f]; invoking a method on [undefined] is a
    [TypeError]. *)
Definition read {Obj Field A} (f : Obj -> option A) (name : string) : M Obj Field A :=
  fun s =>
    match f (this s) with
    | Some a => (Normal a, s)
    | None => (Throw (TypeError name), s)
    end.

(** [this.f = v] *)
Definition write {Obj Field} (f : Field) (upd : Obj -> Obj) : M Obj Field unit :=
  fun s =>
    (Normal tt,
     {| this := upd (this s); world := world s; assigned := assigned s ++ [f] |}).

(** Invocation of a method of a collaborator. *)
Definition call {Obj Field A} (c : Call A) : M Obj Field A :=
  fun s =>
    match c (world s) with
    | (Returns a, w) =>
        (Normal a, {| this := this s; world := w; assigned := assigned s |})
    | (Throws e, w) =>
        (Throw e, {| this := this s; world := w; assigned := assigned s |})
    end.

(** [(config && config.f) || fallback] for an optional configuration record
    with optional fields: objects are truthy, [undefined] is not. *)
Definition or_default {Config A} (config : option Config) (f : Config -> option A) (fallback : A) : A :=
  match config with
  | Some c => match f c with Some a => a | None => fallback end
  | None => fallback
  end.

End Objects.

End Js.
Import Js.

(* ===================================================================== *)
(** * Data model *)
(* ===================================================================== *)

(** The classes below are imported by the adapters from files that are not
    part of the sources at hand; the adapters only pass their values on. *)

(** Modelled from the spec: [../region.class] is missing; a Region is a
    rectangle (x, y, width, height) in screen coordinates. *)
Record Region : Type := mkRegion {
  left : number;
  top : number;
  width : number;
  height : number
}.

(** Modelled from the spec: the pixel formats of [../image.class], which is
    missing; the colour-space policy distinguishes colour from grayscale. *)
Inductive PixelFormat : Type := RGB | BGR | Grayscale.

(** Modelled from the spec: [../image.class] is missing; an Image is a raw
    pixel buffer with its width, its height and an optional pixel format. *)
Record Image : Type := mkImage {
  imageWidth : number;
  imageHeight : number;
  data : list Z;
  pixelFormat : option PixelFormat
}.

(** Modelled from the spec: [../image-match-request.class] is missing; a
    Match Request is a needle, the region the haystack is taken from and a
    minimum confidence. *)
Record ImageMatchRequest : Type := mkImageMatchRequest {
  needle : Image;
  haystackSource : Region;
  minimumConfidence : number
}.

(** Modelled from the spec: [../match-result.class] is missing; a Match
    Result is the bounding box of a match and its confidence. *)
Record MatchResult : Type := mkMatchResult {
  confidence : number;
  location : Region
}.

(** Modelled from the spec: [../provider/ocr/ocr-result.interface] is missing;
    an OCR Result is a text with its confidence and bounding box. *)
Record OCRResult : Type := mkOCRResult {
  text : string;
  ocrConfidence : number;
  boundingBox : Region
}.

(** Modelled from the spec: [../provider/ocr/language.enum] is missing; a
    Language is an enumerated tag selecting the trained model, English being
    [ENG]. *)
Inductive Language : Type :=
| ENG
| OtherLanguage (tag : string).

(* ===================================================================== *)
(** * Collaborator interfaces *)
(* ===================================================================== *)

(** The interface files are not part of the sources either; every member
    below is one the adapters invoke, with the argument and result types the
    adapters give it. *)

Module ScreenActionProvider.
Record t {World : Type} : Type := mk {
  grabScreen : Call (World := World) (promise Image);
  grabScreenRegion : Region -> Call (World := World) (promise Image);
  screenWidth : Call (World := World) (promise number);
  screenHeight : Call (World := World) (promise number);
  screenSize : Call (World := World) (promise Region)
}.
Arguments t : clear implicits.
End ScreenActionProvider.

Module FinderInterface.
Record t {World : Type} : Type := mk {
  findMatch : ImageMatchRequest -> Call (World := World) (promise MatchResult)
}.
Arguments t : clear implicits.
End FinderInterface.

Module TextReader.
Record t {World : Type} : Type := mk {
  readPage : Image -> Language -> Call (World := World) (promise string);
  readWords : Image -> Language -> Call (World := World) (promise (list OCRResult))
}.
Arguments t : clear implicits.
End TextReader.

Module DataSink.
Record t {World : Type} : Type := mk {
  store : Image -> string -> Call (World := World) (promise unit)
}.
Arguments t : clear implicits.
End DataSink.

Module MouseActionProvider.
Record t {World Point Button : Type} : Type := mk {
  setMouseDelay : number -> Call (World := World) unit;
  setMousePosition : Point -> Call (World := World) (promise unit);
  currentMousePosition : Call (World := World) (promise Point);
  leftClick : Call (World := World) (promise unit);
  rightClick : Call (World := World) (promise unit);
  middleClick : Call (World := World) (promise unit);
  pressButton : Button -> Call (World := World) (promise unit);
  releaseButton : Button -> Call (World := World) (promise unit);
  scrollUp : number -> Call (World := World) (promise unit);
  scrollDown : number -> Call (World := World) (promise unit);
  scrollLeft : number -> Call (World := World) (promise unit);
  scrollRight : number -> Call (World := World) (promise unit)
}.
Arguments t : clear implicits.
End MouseActionProvider.

Module KeyboardActionProvider.
Record t {World Key : Type} : Type := mk {
  setKeyboardDelay : number -> Call (World := World) unit;
  type : string -> Call (World := World) (promise unit);
  click : list Key -> Call (World := World) (promise unit);
  pressKey : list Key -> Call (World := World) (promise unit);
  releaseKey : list Key -> Call (World := World) (promise unit)
}.
Arguments t : clear implicits.
End KeyboardActionProvider.

Module ClipboardActionProvider.
Record t {World : Type} : Type := mk {
  copy : string -> Call (World := World) (promise unit);
  paste : Call (World := World) (promise string)
}.
Arguments t : clear implicits.
End ClipboardActionProvider.

(* ===================================================================== *)
(** * VisionAdapter *)
(* ===================================================================== *)

Module VisionAdapter.
Section VisionAdapter.
Context {World : Type}.

(** The production collaborators [new ImageWriter()],
    [new TemplateMatchingFinder()], [new ScreenAction()] and
    [new TesseractReader()].  Their classes are not part of the sources;
    each [new] expression is represented by the collaborator it yields. *)
Variable ImageWriter : DataSink.t World.
Variable TemplateMatchingFinder : FinderInterface.t World.
Variable ScreenAction : ScreenActionProvider.t World.
Variable TesseractReader : TextReader.t World.

Record VisionAdapterConfig : Type := mkConfig {
  cfg_finder : option (FinderInterface.t World);
  cfg_screen : option (ScreenActionProvider.t World);
  cfg_screenReader : option (TextReader.t World);
  cfg_dataSink : option (DataSink.t World)
}.

(** The private fields.  A field holds [None] until the constructor has
    assigned it. *)
Record t : Type := mk {
  dataSink : option (DataSink.t World);
  finder : option (FinderInterface.t World);
  screen : option (ScreenActionProvider.t World);
  screenReader : option (TextReader.t World)
}.

Inductive Field : Type := F_dataSink | F_finder | F_screen | F_screenReader.

Definition Method (A : Type) : Type := M (World := World) t Field A.
Definition State : Type := state (World := World) t Field.

Definition set_dataSink (v : DataSink.t World) : Method unit :=
  write F_dataSink
    (fun o => {| dataSink := Some v; finder := finder o; screen := screen o;
                 screenReader := screenReader o |}).

Definition set_finder (v : FinderInterface.t World) : Method unit :=
  write F_finder
    (fun o => {| dataSink := dataSink o; finder := Some v; screen := screen o;
                 screenReader := screenReader o |}).

Definition set_screen (v : ScreenActionProvider.t World) : Method unit :=
  write F_screen
    (fun o => {| dataSink := dataSink o; finder := finder o; screen := Some v;
                 screenReader := screenReader o |}).

Definition set_screenReader (v : TextReader.t World) : Method unit :=
  write F_screenReader
    (fun o => {| dataSink := dataSink o; finder := finder o; screen := screen o;
                 screenReader := Some v |}).

(** [constructor(config?: VisionAdapterConfig)] *)
Definition constructor (config : option VisionAdapterConfig) : Method unit :=
  set_dataSink (or_default config cfg_dataSink ImageWriter) ;;
  set_finder (or_default config cfg_finder TemplateMatchingFinder) ;;
  set_screen (or_default config cfg_screen ScreenAction) ;;
  set_screenReader (or_default config cfg_screenReader TesseractReader).

(** The object handed to the constructor by [new]. *)
Definition blank : t :=
  {| dataSink := None; finder := None; screen := None; screenReader := None |}.

(** [new VisionAdapter(config)] evaluated in world [w]. *)
Definition new (config : option VisionAdapterConfig) (w : World) : State :=
  snd (constructor config {| this := blank; world := w; assigned := [] |}).

Definition grabScreen : Method (promise Image) :=
  screen <- read screen "screen" ;;
  call (ScreenActionProvider.grabScreen screen).

Definition grabScreenRegion (region : Region) : Method (promise Image) :=
  screen <- read screen "screen" ;;
  call (ScreenActionProvider.grabScreenRegion screen region).

Definition findOnScreenRegion (matchRequest : ImageMatchRequest)
  : Method (promise MatchResult) :=
  async
    (new_Promise (fun resolve reject =>
       try_catch
         (matchResult <-
            await (lift (finder <- read finder "finder" ;;
                         call (FinderInterface.findMatch finder matchRequest))) ;;
          resolve matchResult)
         (fun e => reject e))).

Definition screenWidth : Method (promise number) :=
  screen <- read screen "screen" ;;
  call (ScreenActionProvider.screenWidth screen).

Definition screenHeight : Method (promise number) :=
  screen <- read screen "screen" ;;
  call (ScreenActionProvider.screenHeight screen).

Definition screenSize : Method (promise Region) :=
  screen <- read screen "screen" ;;
  call (ScreenActionProvider.screenSize screen).

(** The cast [this.dataSink as ImageWriter] has no run-time content. *)
Definition saveImage (image : Image) (path : string) : Method (promise unit) :=
  dataSink <- read dataSink "dataSink" ;;
  call (DataSink.store dataSink image path).

(** [language: Language = Language.ENG]: an omitted argument is [None]. *)
Definition default_language (language : option Language) : Language :=
  match language with
  | Some l => l
  | None => ENG
  end.

Definition readText (image : Image) (language : option Language) : Method (promise string) :=
  let language := default_language language in
  screenReader <- read screenReader "screenReader" ;;
  call (TextReader.readPage screenReader image language).

Definition readWords (image : Image) (language : option Language)
  : Method (promise (list OCRResult)) :=
  let language := default_language language in
  screenReader <- read screenReader "screenReader" ;;
  call (TextReader.readWords screenReader image language).

(** ** The public operations as data *)

Inductive Invocation : Type :=
| GrabScreen
| GrabScreenRegion (region : Region)
| FindOnScreenRegion (matchRequest : ImageMatchRequest)
| ScreenWidth
| ScreenHeight
| ScreenSize
| SaveImage (image : Image) (path : string)
| ReadText (image : Image) (language : option Language)
| ReadWords (image : Image) (language : option Language).

(** The state an invocation leaves behind, whatever it returns. *)
Definition after (i : Invocation) (s : State) : State :=
  match i with
  | GrabScreen => snd (grabScreen s)
  | GrabScreenRegion region => snd (grabScreenRegion region s)
  | FindOnScreenRegion matchRequest => snd (findOnScreenRegion matchRequest s)
  | ScreenWidth => snd (screenWidth s)
  | ScreenHeight => snd (screenHeight s)
  | ScreenSize => snd (screenSize s)
  | SaveImage image path => snd (saveImage image path s)
  | ReadText image language => snd (readText image language s)
  | ReadWords image language => snd (readWords image language s)
  end.

Definition after_all (calls : list Invocation) (s : State) : State :=
  fold_left (fun s i => after i s) calls s.

End VisionAdapter.
End VisionAdapter.

(* ===================================================================== *)
(** * NativeAdapter *)
(* ===================================================================== *)

Module NativeAdapter.
Section NativeAdapter.
Context {World : Type}.

(** [../point.class], [../key.enum] and [../button.enum] are not part of the
    sources; the adapter passes their values on untouched. *)
Context {Point Key Button : Type}.

(** The production collaborators [new ClipboardAction()],
    [new KeyboardAction()] and [new MouseAction()], each represented by the
    collaborator the [new] expression yields. *)
Variable ClipboardAction : ClipboardActionProvider.t World.
Variable KeyboardAction : KeyboardActionProvider.t World Key.
Variable MouseAction : MouseActionProvider.t World Point Button.

Record NativeAdapterConfig : Type := mkConfig {
  cfg_clipboard : option (ClipboardActionProvider.t World);
  cfg_keyboard : option (KeyboardActionProvider.t World Key);
  cfg_mouse : option (MouseActionProvider.t World Point Button)
}.

Record t : Type := mk {
  clipboard : option (ClipboardActionProvider.t World);
  keyboard : option (KeyboardActionProvider.t World Key);
  mouse : option (MouseActionProvider.t World Point Button)
}.

Inductive Field : Type := F_clipboard | F_keyboard | F_mouse.

Definition Method (A : Type) : Type := M (World := World) t Field A.
Definition State : Type := state (World := World) t Field.

Definition set_clipboard (v : ClipboardActionProvider.t World) : Method unit :=
  write F_clipboard
    (fun o => {| clipboard := Some v; keyboard := keyboard o; mouse := mouse o |}).

Definition set_keyboard (v : KeyboardActionProvider.t World Key) : Method unit :=
  write F_keyboard
    (fun o => {| clipboard := clipboard o; keyboard := Some v; mouse := mouse o |}).

Definition set_mouse (v : MouseActionProvider.t World Point Button) : Method unit :=
  write F_mouse
    (fun o => {| clipboard := clipboard o; keyboard := keyboard o; mouse := Some v |}).

(** [constructor(config?: NativeAdapterConfig)] *)
Definition constructor (config : option NativeAdapterConfig) : Method unit :=
  set_clipboard (or_default config cfg_clipboard ClipboardAction) ;;
  set_keyboard (or_default config cfg_keyboard KeyboardAction) ;;
  set_mouse (or_default config cfg_mouse MouseAction).

Definition blank : t :=
  {| clipboard := None; keyboard := None; mouse := None |}.

(** [new NativeAdapter(config)] evaluated in world [w]. *)
Definition new (config : option NativeAdapterConfig) (w : World) : State :=
  snd (constructor config {| this := blank; world := w; assigned := [] |}).

Definition setMouseDelay (delay : number) : Method unit :=
  mouse <- read mouse "mouse" ;;
  call (MouseActionProvider.setMouseDelay mouse delay).

Definition setKeyboardDelay (delay : number) : Method unit :=
  keyboard <- read keyboard "keyboard" ;;
  call (KeyboardActionProvider.setKeyboardDelay keyboard delay).

Definition setMousePosition (p : Point) : Method (promise unit) :=
  mouse <- read mouse "mouse" ;;
  call (MouseActionProvider.setMousePosition mouse p).

Definition currentMousePosition : Method (promise Point) :=
  mouse <- read mouse "mouse" ;;
  call (MouseActionProvider.currentMousePosition mouse).

Definition leftClick : Method (promise unit) :=
  mouse <- read mouse "mouse" ;;
  call (MouseActionProvider.leftClick mouse).

Definition rightClick : Method (promise unit) :=
  mouse <- read mouse "mouse" ;;
  call (MouseActionProvider.rightClick mouse).

Definition middleClick : Method (promise unit) :=
  mouse <- read mouse "mouse" ;;
  call (MouseActionProvider.middleClick mouse).

Definition pressButton (btn : Button) : Method (promise unit) :=
  mouse <- read mouse "mouse" ;;
  call (MouseActionProvider.pressButton mouse btn).

Definition releaseButton (btn : Button) : Method (promise unit) :=
  mouse <- read mouse "mouse" ;;
  call (MouseActionProvider.releaseButton mouse btn).

Definition type (input : string) : Method (promise unit) :=
  keyboard <- read keyboard "keyboard" ;;
  call (KeyboardActionProvider.type keyboard input).

Definition click (keys : list Key) : Method (promise unit) :=
  keyboard <- read keyboard "keyboard" ;;
  call (KeyboardActionProvider.click keyboard keys).

Definition pressKey (keys : list Key) : Method (promise unit) :=
  keyboard <- read keyboard "keyboard" ;;
  call (KeyboardActionProvider.pressKey keyboard keys).

Definition releaseKey (keys : list Key) : Method (promise unit) :=
  keyboard <- read keyboard "keyboard" ;;
  call (KeyboardActionProvider.releaseKey keyboard keys).

Definition scrollUp (amount : number) : Method (promise unit) :=
  mouse <- read mouse "mouse" ;;
  call (MouseActionProvider.scrollUp mouse amount).

Definition scrollDown (amount : number) : Method (promise unit) :=
  mouse <- read mouse "mouse" ;;
  call (MouseActionProvider.scrollDown mouse amount).

Definition scrollLeft (amount : number) : Method (promise unit) :=
  mouse <- read mouse "mouse" ;;
  call (MouseActionProvider.scrollLeft mouse amount).

Definition scrollRight (amount : number) : Method (promise unit) :=
  mouse <- read mouse "mouse" ;;
  call (MouseActionProvider.scrollRight mouse amount).

Definition copy (text : string) : Method (promise unit) :=
  clipboard <- read clipboard "clipboard" ;;
  call (ClipboardActionProvider.copy clipboard text).

Definition paste : Method (promise string) :=
  clipboard <- read clipboard "clipboard" ;;
  call (ClipboardActionProvider.paste clipboard).

(** ** The public operations as data *)

Inductive Invocation : Type :=
| SetMouseDelay (delay : number)
| SetKeyboardDelay (delay : number)
| SetMousePosition (p : Point)
| CurrentMousePosition
| LeftClick
| RightClick
| MiddleClick
| PressButton (btn : Button)
| ReleaseButton (btn : Button)
| Type_ (input : string)
| Click (keys : list Key)
| PressKey (keys : list Key)
| ReleaseKey (keys : list Key)
| ScrollUp (amount : number)
| ScrollDown (amount : number)
| ScrollLeft (amount : number)
| ScrollRight (amount : number)
| Copy (text : string)
| Paste.

(** The state an invocation leaves behind, whatever it returns. *)
Definition after (i : Invocation) (s : State) : State :=
  match i with
  | SetMouseDelay delay => snd (setMouseDelay delay s)
  | SetKeyboardDelay delay => snd (setKeyboardDelay delay s)
  | SetMousePosition p => snd (setMousePosition p s)
  | CurrentMousePosition => snd (currentMousePosition s)
  | LeftClick => snd (leftClick s)
  | RightClick => snd (rightClick s)
  | MiddleClick => snd (middleClick s)
  | PressButton btn => snd (pressButton btn s)
  | ReleaseButton btn => snd (releaseButton btn s)
  | Type_ input => snd (type input s)
  | Click keys => snd (click keys s)
  | PressKey keys => snd (pressKey keys s)
  | ReleaseKey keys => snd (releaseKey keys s)
  | ScrollUp amount => snd (scrollUp amount s)
  | ScrollDown amount => snd (scrollDown amount s)
  | ScrollLeft amount => snd (scrollLeft amount s)
  | ScrollRight amount => snd (scrollRight amount s)
  | Copy text => snd (copy text s)
  | Paste => snd (paste s)
  end.

Definition after_all (calls : list Invocation) (s : State) : State :=
  fold_left (fun s i => after i s) calls s.

End NativeAdapter.
End NativeAdapter.

(* ===================================================================== *)
(** * Finder: threshold policy and best-match selection *)
(* ===================================================================== *)

Module TemplateMatchingFinder.
Section Finder.
Context {World : Type}.

(** Modelled from the spec: the answer of the Matching Engine, which is
    missing from the sources: zero or more candidates with location and
    score, or a fault of the engine (malformed image, unreadable buffer). *)
Inductive EngineResponse : Type :=
| Candidates (candidates : list MatchResult)
| Fault (msg : string).

(** Modelled from the spec: the Matching Engine itself, given a haystack
    image, a needle image and a minimum confidence. *)
Variable engine : Image -> Image -> number -> EngineResponse.

(** Modelled from the spec: the grayscale conversion applied to needle and
    haystack; the routine is the engine library's. *)
Variable rgbToGrayScale : Image -> Image.

(** Modelled from the spec: the haystack image the region of a request
    denotes in the current world. *)
Variable capture : Region -> World -> Image.

(** Modelled from the spec: at or above this minimum confidence the search
    is performed in full colour. *)
Definition colourThreshold : number := 0.99.

(** Modelled from the spec: the pair (haystack, needle) handed to the
    engine: as given when the minimum confidence reaches the threshold, both
    converted to grayscale otherwise. *)
Definition searchImages (request : ImageMatchRequest) (haystack : Image) : Image * Image :=
  if Qle_bool colourThreshold (minimumConfidence request)
  then (haystack, needle request)
  else (rgbToGrayScale haystack, rgbToGrayScale (needle request)).

(** Modelled from the spec: a later candidate replaces the best one so far
    only when its confidence is strictly higher. *)
Definition better (best candidate : MatchResult) : MatchResult :=
  if Qle_bool (confidence candidate) (confidence best) then best else candidate.

(** Modelled from the spec: the single candidate with the highest
    confidence, the first encountered among equals. *)
Definition selectBest (candidates : list MatchResult) : option MatchResult :=
  match candidates with
  | [] => None
  | first :: rest => Some (fold_left better rest first)
  end.

(** Modelled from the spec: the outcome of a find: an engine fault is an
    [EngineFailure]; the chosen candidate must reach the minimum confidence,
    else [NoMatchFound]. *)
Definition outcomeOf (request : ImageMatchRequest) (response : EngineResponse)
  : promise MatchResult :=
  match response with
  | Fault msg => Rejected (EngineFailure msg)
  | Candidates candidates =>
      match selectBest candidates with
      | None => Rejected NoMatchFound
      | Some best =>
          if Qle_bool (minimumConfidence request) (confidence best)
          then Fulfilled best
          else Rejected NoMatchFound
      end
  end.

(** Modelled from the spec: [findMatch] of the production finder
    ([../provider/opencv/template-matching-finder.class], missing). *)
Definition findMatch (request : ImageMatchRequest) : Call (World := World) (promise MatchResult) :=
  fun w =>
    let haystack := capture (haystackSource request) w in
    let '(h, n) := searchImages request haystack in
    (Returns (outcomeOf request (engine h n (minimumConfidence request))), w).

(** Modelled from the spec: the production finder as a collaborator. *)
Definition finder : FinderInterface.t World :=
  {| FinderInterface.findMatch := findMatch |}.

End Finder.
End TemplateMatchingFinder.

(* ===================================================================== *)
(** * Text reader: the life cycle of an OCR job *)
(* ===================================================================== *)

(** The declarations of [src/types/tesseract.js/index.d.ts] the reader
    touches.  The back references of the page structure (word to line, line
    to paragraph, ...), symbols, choices and font attributes are left out. *)
Module Tesseract.

Record Progress : Type := mkProgress {
  status : string;
  progress : number;
  loaded : option number
}.

Record Bbox : Type := mkBbox { x0 : number; y0 : number; x1 : number; y1 : number }.

Record Word : Type := mkWord {
  word_text : string;
  word_confidence : number;
  word_bbox : Bbox
}.

Record Line : Type := mkLine {
  line_words : list Word;
  line_text : string;
  line_confidence : number;
  line_bbox : Bbox
}.

Record Paragraph : Type := mkParagraph {
  paragraph_lines : list Line;
  paragraph_text : string;
  paragraph_confidence : number;
  paragraph_bbox : Bbox
}.

(** [paragraphs: Paragraph] is declared as a single value. *)
Record Block : Type := mkBlock {
  block_paragraphs : Paragraph;
  block_text : string;
  block_confidence : number;
  block_bbox : Bbox
}.

Record Page : Type := mkPage {
  page_blocks : list Block;
  page_confidence : number;
  page_text : string
}.

(** What a [TesseractJob] delivers to the callbacks registered with
    [progress], [then] and [catch], in the order of delivery.  The error is
    represented by its message. *)
Inductive Notification : Type :=
| OnProgress (p : Progress)
| OnResult (result : Page)
| OnError (message : string).

Definition TesseractJob : Type := list Notification.

End Tesseract.

Module TesseractReader.
Import Tesseract.
Section Reader.
Context {World : Type}.

(** [TesseractWorker.recognize(image, options)]: the engine is a parameter. *)
Variable recognize : Image -> Language -> World -> TesseractJob * World.

(** Modelled from the spec: the states of the job life cycle. *)
Inductive JobState : Type :=
| Submitted
| Running
| Succeeded (result : Page)
| Failed (message : string).

(** Modelled from the spec: progress is informational, the first result or
    error is terminal, and a terminal state is not revisited. *)
Definition notify (st : JobState) (n : Notification) : JobState :=
  match st with
  | Succeeded _ | Failed _ => st
  | Submitted | Running =>
      match n with
      | OnProgress _ => Running
      | OnResult result => Succeeded result
      | OnError message => Failed message
      end
  end.

(** Modelled from the spec: the state a job ends in. *)
Definition lifecycle (job : TesseractJob) : JobState :=
  fold_left notify job Submitted.

(** Modelled from the spec: the terminal outcome as a deferred value: the
    projected page, an [OcrFailure] with the engine's message, or no
    settlement at all when the engine never reaches a terminal state. *)
Definition terminal {A} (project : Page -> A) (st : JobState) : promise A :=
  match st with
  | Succeeded result => Fulfilled (project result)
  | Failed message => Rejected (OcrFailure message)
  | Submitted | Running => Pending
  end.

(** Modelled from the spec: the bounding box of a word as a Region. *)
Definition regionOf (b : Bbox) : Region :=
  {| left := x0 b; top := y0 b; width := x1 b - x0 b; height := y1 b - y0 b |}.

(** Modelled from the spec: one OCR Result per word with the word's own
    confidence and bounding box. *)
Definition resultOf (w : Word) : OCRResult :=
  {| text := word_text w; ocrConfidence := word_confidence w;
     boundingBox := regionOf (word_bbox w) |}.

(** Modelled from the spec: the walk block, paragraph, line, word in
    document order. *)
Definition wordsOf (page : Page) : list OCRResult :=
  flat_map
    (fun block =>
       flat_map (fun line => map resultOf (line_words line))
                (paragraph_lines (block_paragraphs block)))
    (page_blocks page).

(** Modelled from the spec: [readPage] of the production text reader
    ([../provider/ocr/tesseract-reader.class], missing). *)
Definition readPage (image : Image) (language : Language) : Call (World := World) (promise string) :=
  fun w =>
    let '(job, w') := recognize image language w in
    (Returns (terminal page_text (lifecycle job)), w').

(** Modelled from the spec: [readWords] of the production text reader. *)
Definition readWords (image : Image) (language : Language)
  : Call (World := World) (promise (list OCRResult)) :=
  fun w =>
    let '(job, w') := recognize image language w in
    (Returns (terminal wordsOf (lifecycle job)), w').

(** Modelled from the spec: the production text reader as a collaborator. *)
Definition reader : TextReader.t World :=
  {| TextReader.readPage := readPage; TextReader.readWords := readWords |}.

End Reader.
End TesseractReader.

(* ===================================================================== *)
(** * Specification vocabulary *)
(* ===================================================================== *)

(** [config && config.f]: the collaborator a configuration record sets. *)
Definition configured {Config A} (config : option Config) (f : Config -> option A) : option A :=
  match config with
  | Some c => f c
  | None => None
  end.

(** Field [slot] holds the collaborator chosen by the configuration: the
    one that is set, the production default otherwise. *)
Definition bound_as {A} (chosen : option A) (default : A) (slot : option A) : Prop :=
  (forall a, chosen = Some a -> slot = Some a) /\
  (chosen = None -> slot = Some default).

(** The single failure channel of a deferred result: a synchronous throw is
    seen as a rejection. *)
Definition deferred {A} (c : completion (promise A)) : promise A :=
  match c with
  | Returns p => p
  | Throws e => Rejected e
  end.

(** [best] is the first candidate of [candidates] with the highest
    confidence: strictly above everything before it, at least as high as
    everything after it. *)
Definition first_highest (best : MatchResult) (candidates : list MatchResult) : Prop :=
  exists before after,
    candidates = before ++ best :: after /\
    (forall m, In m before -> confidence m < confidence best) /\
    (forall m, In m after -> confidence m <= confidence best).

(** A method leaves the adapter object and its assignment history alone. *)
Definition frame {World Obj Field A} (m : M (World := World) Obj Field A) : Prop :=
  forall s, this (snd (m s)) = this s /\ assigned (snd (m s)) = assigned s.

(* ===================================================================== *)
(** * Test doubles *)
(* ===================================================================== *)

Module Doubles.

(** The world of the doubles is the journal of what was asked of them. *)
Inductive Entry : Type :=
| Stored (image : Image) (path : string)
| Recognized (image : Image) (language : Language)
| Searched (request : ImageMatchRequest)
| Grabbed (region : option Region)
| Measured (what : string)
| Pointer (what : string)
| Keys (what : string)
| Clip (what : string).

Definition World : Type := list Entry.

Definition note {A} (e : Entry) (result : completion A) : Call (World := World) A :=
  fun w => (result, w ++ [e]).

Definition pixel : Image :=
  {| imageWidth := 1; imageHeight := 1; data := [10; 20; 30]%Z; pixelFormat := Some RGB |}.

Definition icon : Image :=
  {| imageWidth := 2; imageHeight := 1; data := [1; 2; 3; 4; 5; 6]%Z; pixelFormat := Some RGB |}.

Definition desktop : Region := {| left := 0; top := 0; width := 1920; height := 1080 |}.

Definition sink : DataSink.t World :=
  {| DataSink.store := fun image path => note (Stored image path) (Returns (Fulfilled tt)) |}.

Definition readOnlySink : DataSink.t World :=
  {| DataSink.store := fun image path =>
       note (Stored image path) (Returns (Rejected (SinkWriteFailure "EACCES"))) |}.

Definition screen : ScreenActionProvider.t World :=
  {| ScreenActionProvider.grabScreen := note (Grabbed None) (Returns (Fulfilled pixel));
     ScreenActionProvider.grabScreenRegion :=
       fun region => note (Grabbed (Some region)) (Returns (Fulfilled pixel));
     ScreenActionProvider.screenWidth := note (Measured "width") (Returns (Fulfilled 1920));
     ScreenActionProvider.screenHeight := note (Measured "height") (Returns (Fulfilled 1080));
     ScreenActionProvider.screenSize := note (Measured "size") (Returns (Fulfilled desktop)) |}.

Definition throwingFinder : FinderInterface.t World :=
  {| FinderInterface.findMatch :=
       fun request => note (Searched request) (Throws (OtherError "synchronous")) |}.

Definition rejectingFinder : FinderInterface.t World :=
  {| FinderInterface.findMatch :=
       fun request => note (Searched request) (Returns (Rejected (OtherError "asynchronous"))) |}.

Definition textReader : TextReader.t World :=
  {| TextReader.readPage :=
       fun image language => note (Recognized image language) (Returns (Fulfilled "page"));
     TextReader.readWords :=
       fun image language => note (Recognized image language) (Returns (Fulfilled [])) |}.

(** A grayscale conversion: every pixel becomes the mean of its channels. *)
Fixpoint means (channels : list Z) : list Z :=
  match channels with
  | r :: g :: b :: rest => ((r + g + b) / 3)%Z :: means rest
  | _ => []
  end.

Definition gray (image : Image) : Image :=
  {| imageWidth := imageWidth image; imageHeight := imageHeight image;
     data := means (data image); pixelFormat := Some Grayscale |}.

Definition at_ (c : number) (x : number) : MatchResult :=
  {| confidence := c; location := {| left := x; top := 0; width := 2; height := 1 |} |}.

(** A canned engine: strong candidates for a wide needle, a weak one for a
    needle of width 1, and a fault for an empty buffer.  Colour images make
    it a little surer than grayscale ones. *)
Definition engine (haystack needle : Image) (min : number) : TemplateMatchingFinder.EngineResponse :=
  match data needle with
  | [] => TemplateMatchingFinder.Fault "unreadable buffer"
  | _ =>
      if Qeq_bool (imageWidth needle) 1
      then TemplateMatchingFinder.Candidates [at_ 0.3 0; at_ 0.5 7; at_ 0.5 9]
      else
        match pixelFormat haystack with
        | Some Grayscale =>
            TemplateMatchingFinder.Candidates [at_ 0.72 0; at_ 0.95 40; at_ 0.81 80]
        | _ =>
            TemplateMatchingFinder.Candidates [at_ 0.75 0; at_ 0.995 40; at_ 0.995 80]
        end
  end.

Definition capture (region : Region) (w : World) : Image := pixel.

Definition finder : FinderInterface.t World :=
  TemplateMatchingFinder.finder engine gray capture.

(** A canned OCR engine: English pages are recognised after two progress
    notifications; any other language fails after one. *)
Definition hello : Tesseract.Page :=
  let box := Tesseract.mkBbox 0 0 10 4 in
  let word := Tesseract.mkWord "hello" 0.9 box in
  let line := Tesseract.mkLine [word] "hello" 0.9 box in
  let paragraph := Tesseract.mkParagraph [line] "hello" 0.9 box in
  Tesseract.mkPage [Tesseract.mkBlock paragraph "hello" 0.9 box] 0.9 "hello".

Definition recognize (image : Image) (language : Language) (w : World)
  : Tesseract.TesseractJob * World :=
  let loading := Tesseract.OnProgress (Tesseract.mkProgress "loading" 0.5 None) in
  match language with
  | ENG =>
      ([loading; loading; Tesseract.OnResult hello], w ++ [Recognized image language])
  | OtherLanguage tag =>
      ([loading; Tesseract.OnError "missing traineddata"; Tesseract.OnResult hello],
       w ++ [Recognized image language])
  end.

Definition reader : TextReader.t World := TesseractReader.reader recognize.

Definition config : VisionAdapter.VisionAdapterConfig :=
  {| VisionAdapter.cfg_finder := Some finder;
     VisionAdapter.cfg_screen := None;
     VisionAdapter.cfg_screenReader := Some reader;
     VisionAdapter.cfg_dataSink := Some readOnlySink |}.

(** An adapter with the doubles as production collaborators. *)
Definition adapter (config : option VisionAdapter.VisionAdapterConfig) : VisionAdapter.State :=
  VisionAdapter.new sink throwingFinder screen textReader config [].

(** Doubles of the native collaborators. *)
Inductive Button : Type := LEFT | MIDDLE | RIGHT.

Definition Key : Type := string.

Definition Point : Type := (number * number)%type.

Definition done (e : Entry) : Call (World := World) (promise unit) :=
  note e (Returns (Fulfilled tt)).

Definition mouse : MouseActionProvider.t World Point Button :=
  {| MouseActionProvider.setMouseDelay := fun delay => note (Pointer "delay") (Returns tt);
     MouseActionProvider.setMousePosition := fun p => done (Pointer "move");
     MouseActionProvider.currentMousePosition :=
       note (Pointer "where") (Returns (Fulfilled (0, 0)));
     MouseActionProvider.leftClick := done (Pointer "left");
     MouseActionProvider.rightClick := done (Pointer "right");
     MouseActionProvider.middleClick := done (Pointer "middle");
     MouseActionProvider.pressButton := fun btn => done (Pointer "press");
     MouseActionProvider.releaseButton := fun btn => done (Pointer "release");
     MouseActionProvider.scrollUp := fun amount => done (Pointer "up");
     MouseActionProvider.scrollDown := fun amount => done (Pointer "down");
     MouseActionProvider.scrollLeft := fun amount => done (Pointer "scroll left");
     MouseActionProvider.scrollRight := fun amount => done (Pointer "scroll right") |}.

Definition keyboard : KeyboardActionProvider.t World Key :=
  {| KeyboardActionProvider.setKeyboardDelay := fun delay => note (Keys "delay") (Returns tt);
     KeyboardActionProvider.type := fun input => done (Keys input);
     KeyboardActionProvider.click := fun keys => done (Keys (String.concat "+" keys));
     KeyboardActionProvider.pressKey := fun keys => done (Keys (String.concat "+" keys));
     KeyboardActionProvider.releaseKey := fun keys => done (Keys (String.concat "+" keys)) |}.

Definition clipboard : ClipboardActionProvider.t World :=
  {| ClipboardActionProvider.copy := fun text => done (Clip text);
     ClipboardActionProvider.paste := note (Clip "paste") (Returns (Fulfilled "pasted")) |}.

(** A keyboard without driver: every operation throws. *)
Definition deadKeyboard : KeyboardActionProvider.t World Key :=
  let dead := fun A : Type => note (A := A) (Keys "dead") (Throws (OtherError "no driver")) in
  {| KeyboardActionProvider.setKeyboardDelay := fun delay => dead unit;
     KeyboardActionProvider.type := fun input => dead (promise unit);
     KeyboardActionProvider.click := fun keys => dead (promise unit);
     KeyboardActionProvider.pressKey := fun keys => dead (promise unit);
     KeyboardActionProvider.releaseKey := fun keys => dead (promise unit) |}.

Definition nativeAdapter (config : option NativeAdapter.NativeAdapterConfig)
  : NativeAdapter.State :=
  NativeAdapter.new clipboard keyboard mouse config [].

End Doubles.

(* ===================================================================== *)
(** * What the collaborators do for an operation *)
(* ===================================================================== *)

(** The effect on the world of the one collaborator method an operation of
    [VisionAdapter] stands for, invoked directly. *)
Definition vision_effect {World : Type}
  (dataSink : DataSink.t World) (finder : FinderInterface.t World)
  (screen : ScreenActionProvider.t World) (screenReader : TextReader.t World)
  (i : VisionAdapter.Invocation) (w : World) : World :=
  match i with
  | VisionAdapter.GrabScreen => snd (ScreenActionProvider.grabScreen screen w)
  | VisionAdapter.GrabScreenRegion region =>
      snd (ScreenActionProvider.grabScreenRegion screen region w)
  | VisionAdapter.FindOnScreenRegion matchRequest =>
      snd (FinderInterface.findMatch finder matchRequest w)
  | VisionAdapter.ScreenWidth => snd (ScreenActionProvider.screenWidth screen w)
  | VisionAdapter.ScreenHeight => snd (ScreenActionProvider.screenHeight screen w)
  | VisionAdapter.ScreenSize => snd (ScreenActionProvider.screenSize screen w)
  | VisionAdapter.SaveImage image path => snd (DataSink.store dataSink image path w)
  | VisionAdapter.ReadText image language =>
      snd (TextReader.readPage screenReader image
             (match language with Some l => l | None => ENG end) w)
  | VisionAdapter.ReadWords image language =>
      snd (TextReader.readWords screenReader image
             (match language with Some l => l | None => ENG end) w)
  end.

(** The same for [NativeAdapter]. *)
Definition native_effect {World Point Key Button : Type}
  (clipboard : ClipboardActionProvider.t World)
  (keyboard : KeyboardActionProvider.t World Key)
  (mouse : MouseActionProvider.t World Point Button)
  (i : NativeAdapter.Invocation (Point := Point) (Key := Key) (Button := Button))
  (w : World) : World :=
  match i with
  | NativeAdapter.SetMouseDelay delay => snd (MouseActionProvider.setMouseDelay mouse delay w)
  | NativeAdapter.SetKeyboardDelay delay =>
      snd (KeyboardActionProvider.setKeyboardDelay keyboard delay w)
  | NativeAdapter.SetMousePosition p => snd (MouseActionProvider.setMousePosition mouse p w)
  | NativeAdapter.CurrentMousePosition =>
      snd (MouseActionProvider.currentMousePosition mouse w)
  | NativeAdapter.LeftClick => snd (MouseActionProvider.leftClick mouse w)
  | NativeAdapter.RightClick => snd (MouseActionProvider.rightClick mouse w)
  | NativeAdapter.MiddleClick => snd (MouseActionProvider.middleClick mouse w)
  | NativeAdapter.PressButton btn => snd (MouseActionProvider.pressButton mouse btn w)
  | NativeAdapter.ReleaseButton btn => snd (MouseActionProvider.releaseButton mouse btn w)
  | NativeAdapter.Type_ input => snd (KeyboardActionProvider.type keyboard input w)
  | NativeAdapter.Click keys => snd (KeyboardActionProvider.click keyboard keys w)
  | NativeAdapter.PressKey keys => snd (KeyboardActionProvider.pressKey keyboard keys w)
  | NativeAdapter.ReleaseKey keys => snd (KeyboardActionProvider.releaseKey keyboard keys w)
  | NativeAdapter.ScrollUp amount => snd (MouseActionProvider.scrollUp mouse amount w)
  | NativeAdapter.ScrollDown amount => snd (MouseActionProvider.scrollDown mouse amount w)
  | NativeAdapter.ScrollLeft amount => snd (MouseActionProvider.scrollLeft mouse amount w)
  | NativeAdapter.ScrollRight amount => snd (MouseActionProvider.scrollRight mouse amount w)
  | NativeAdapter.Copy text => snd (ClipboardActionProvider.copy clipboard text w)
  | NativeAdapter.Paste => snd (ClipboardActionProvider.paste clipboard w)
  end.

(** Two choices of production collaborators agree wherever the
    configuration leaves the choice to them. *)
Definition agree_where_unset {A} (chosen : option A) (default default' : A) : Prop :=
  chosen = None -> default = default'.

(** Collaborators that fail at once, for every operation. *)
Module Faulty.

Definition failing {A : Type} (what : string) : Call (World := Doubles.World) A :=
  Doubles.note (Doubles.Measured what) (Throws (OtherError what)).

Definition screen : ScreenActionProvider.t Doubles.World :=
  {| ScreenActionProvider.grabScreen := failing "grabScreen";
     ScreenActionProvider.grabScreenRegion := fun region => failing "grabScreenRegion";
     ScreenActionProvider.screenWidth := failing "screenWidth";
     ScreenActionProvider.screenHeight := failing "screenHeight";
     ScreenActionProvider.screenSize := failing "screenSize" |}.

Definition sink : DataSink.t Doubles.World :=
  {| DataSink.store := fun image path => failing "store" |}.

Definition textReader : TextReader.t Doubles.World :=
  {| TextReader.readPage := fun image language => failing "readPage";
     TextReader.readWords := fun image language => failing "readWords" |}.

Definition config : VisionAdapter.VisionAdapterConfig :=
  {| VisionAdapter.cfg_finder := None;
     VisionAdapter.cfg_screen := Some screen;
     VisionAdapter.cfg_screenReader := Some textReader;
     VisionAdapter.cfg_dataSink := Some sink |}.

End Faulty.

(* ===================================================================== *)
(** * The frame of a method body *)
(* ===================================================================== *)

Section Frame.
Context {World Obj Field : Type}.

Let Method : Type -> Type := M (World := World) Obj Field.

Lemma frame_read {A} (f : Obj -> option A) (name : string) :
  frame (read f name : Method A).
Proof.
  intros s; unfold read.
  destruct (f (this s)); split; reflexivity.
Qed.

Lemma frame_call {A} (c : Call A) : frame (call c : Method A).
Proof.
  intros s; unfold call.
  destruct (c (world s)) as [[a | e] w]; split; reflexivity.
Qed.

Lemma frame_bind {A B} (m : Method A) (k : A -> Method B) :
  frame m -> (forall a, frame (k a)) -> frame (bind m k).
Proof.
  intros Hm Hk s; cbn; unfold bind_.
  destruct (Hm s) as [Ht Ha].
  destruct (m s) as [[a | e |] s']; cbn in *.
  - destruct (Hk a s') as [Ht' Ha']; split; congruence.
  - split; assumption.
  - split; assumption.
Qed.

(** A delegating body: read a collaborator, invoke one of its methods. *)
Lemma frame_delegate {C A} (f : Obj -> option C) (name : string) (m : C -> Call A) :
  frame (c <- read f name ;; call (m c) : Method A).
Proof.
  apply frame_bind; [apply frame_read | intros c; apply frame_call].
Qed.

(** What a delegating body computes once the collaborator is bound. *)
Lemma run_delegate {C A} (f : Obj -> option C) (name : string) (m : C -> Call A)
  (s : state Obj Field) (c : C) :
  f (this s) = Some c ->
  (c <- read f name ;; call (m c) : Method A) s = call (m c) s.
Proof.
  intros H; cbn; unfold bind_, read; rewrite H; reflexivity.
Qed.

End Frame.


(* ===================================================================== *)
(** * VisionAdapter: construction and frame *)
(* ===================================================================== *)

Section VisionFacts.
Context {World : Type}.
Variable ImageWriter : DataSink.t World.
Variable TemplateMatchingFinder : FinderInterface.t World.
Variable ScreenAction : ScreenActionProvider.t World.
Variable TesseractReader : TextReader.t World.

Let new := VisionAdapter.new ImageWriter TemplateMatchingFinder ScreenAction TesseractReader.
Let State : Type := VisionAdapter.State (World := World).

(** The object the constructor leaves behind. *)
Lemma vision_new_this (config : option VisionAdapter.VisionAdapterConfig) (w : World) :
  this (new config w) =
  VisionAdapter.mk
    (Some (or_default config VisionAdapter.cfg_dataSink ImageWriter))
    (Some (or_default config VisionAdapter.cfg_finder TemplateMatchingFinder))
    (Some (or_default config VisionAdapter.cfg_screen ScreenAction))
    (Some (or_default config VisionAdapter.cfg_screenReader TesseractReader)).
Proof. reflexivity. Qed.

Lemma vision_new_assigned (config : option VisionAdapter.VisionAdapterConfig) (w : World) :
  assigned (new config w) =
  [VisionAdapter.F_dataSink; VisionAdapter.F_finder; VisionAdapter.F_screen;
   VisionAdapter.F_screenReader].
Proof. reflexivity. Qed.

Lemma vision_new_world (config : option VisionAdapter.VisionAdapterConfig) (w : World) :
  world (new config w) = w.
Proof. reflexivity. Qed.

(** What [findOnScreenRegion] computes once the finder is bound. *)
Lemma findOnScreenRegion_run (s : State) (f : FinderInterface.t World)
  (matchRequest : ImageMatchRequest) :
  VisionAdapter.finder (this s) = Some f ->
  VisionAdapter.findOnScreenRegion matchRequest s =
  (Normal (deferred (fst (FinderInterface.findMatch f matchRequest (world s)))),
   {| this := this s;
      world := snd (FinderInterface.findMatch f matchRequest (world s));
      assigned := assigned s |}).
Proof.
  intros Hf.
  unfold VisionAdapter.findOnScreenRegion, async, new_Promise, try_catch, await, lift.
  cbn; unfold bind_, read, call; rewrite Hf.
  destruct (FinderInterface.findMatch f matchRequest (world s)) as [[p | e] w]; cbn.
  - destruct p; reflexivity.
  - reflexivity.
Qed.

Lemma frame_findOnScreenRegion (matchRequest : ImageMatchRequest) :
  frame (VisionAdapter.findOnScreenRegion (World := World) matchRequest).
Proof.
  intros s.
  destruct (VisionAdapter.finder (this s)) as [f |] eqn:Hf.
  - rewrite (findOnScreenRegion_run s matchRequest Hf); split; reflexivity.
  - unfold VisionAdapter.findOnScreenRegion, async, new_Promise, try_catch, await, lift.
    cbn; unfold bind_, read; rewrite Hf; split; reflexivity.
Qed.

Lemma vision_after_frame (i : VisionAdapter.Invocation) (s : State) :
  this (VisionAdapter.after i s) = this s /\
  assigned (VisionAdapter.after i s) = assigned s.
Proof.
  destruct i; cbn [VisionAdapter.after];
    first [ apply frame_findOnScreenRegion
          | apply (frame_delegate (Field := VisionAdapter.Field)) ].
Qed.

Lemma vision_after_all_frame (calls : list VisionAdapter.Invocation) (s : State) :
  this (VisionAdapter.after_all calls s) = this s /\
  assigned (VisionAdapter.after_all calls s) = assigned s.
Proof.
  revert s; induction calls as [| i calls IH]; intros s; cbn.
  - split; reflexivity.
  - destruct (IH (VisionAdapter.after i s)) as [Ht Ha].
    destruct (vision_after_frame i s) as [Ht' Ha'].
    unfold VisionAdapter.after_all in *; split; congruence.
Qed.

(** The fields of an adapter in use: any number of operations after [new]. *)
Lemma vision_in_use (config : option VisionAdapter.VisionAdapterConfig) (w : World)
  (calls : list VisionAdapter.Invocation) :
  this (VisionAdapter.after_all calls (new config w)) = this (new config w).
Proof. apply vision_after_all_frame. Qed.

End VisionFacts.

(* ===================================================================== *)
(** * NativeAdapter: construction and frame *)
(* ===================================================================== *)

Section NativeFacts.
Context {World Point Key Button : Type}.
Variable ClipboardAction : ClipboardActionProvider.t World.
Variable KeyboardAction : KeyboardActionProvider.t World Key.
Variable MouseAction : MouseActionProvider.t World Point Button.

Let new := NativeAdapter.new ClipboardAction KeyboardAction MouseAction.
Let State : Type := NativeAdapter.State (World := World) (Point := Point) (Key := Key) (Button := Button).
Let Invocation : Type := NativeAdapter.Invocation (Point := Point) (Key := Key) (Button := Button).

Lemma native_new_this (config : option NativeAdapter.NativeAdapterConfig) (w : World) :
  this (new config w) =
  NativeAdapter.mk
    (Some (or_default config NativeAdapter.cfg_clipboard ClipboardAction))
    (Some (or_default config NativeAdapter.cfg_keyboard KeyboardAction))
    (Some (or_default config NativeAdapter.cfg_mouse MouseAction)).
Proof. reflexivity. Qed.

Lemma native_new_assigned (config : option NativeAdapter.NativeAdapterConfig) (w : World) :
  assigned (new config w) =
  [NativeAdapter.F_clipboard; NativeAdapter.F_keyboard; NativeAdapter.F_mouse].
Proof. reflexivity. Qed.

Lemma native_after_frame (i : Invocation) (s : State) :
  this (NativeAdapter.after i s) = this s /\
  assigned (NativeAdapter.after i s) = assigned s.
Proof.
  destruct i; cbn [NativeAdapter.after];
    apply (frame_delegate (Field := NativeAdapter.Field)).
Qed.

Lemma native_after_all_frame (calls : list Invocation) (s : State) :
  this (NativeAdapter.after_all calls s) = this s /\
  assigned (NativeAdapter.after_all calls s) = assigned s.
Proof.
  revert s; induction calls as [| i calls IH]; intros s; cbn.
  - split; reflexivity.
  - destruct (IH (NativeAdapter.after i s)) as [Ht Ha].
    destruct (native_after_frame i s) as [Ht' Ha'].
    unfold NativeAdapter.after_all in *; split; congruence.
Qed.

End NativeFacts.

(** [bound_as] against the expression of the constructors. *)
Lemma bound_as_or_default {Config A} (config : option Config) (f : Config -> option A)
  (default : A) :
  bound_as (configured config f) default (Some (or_default config f default)).
Proof.
  unfold bound_as, configured, or_default.
  destruct config as [c |]; [destruct (f c) |]; split; congruence.
Qed.

(* ===================================================================== *)
(** * Finder: selection lemmas *)
(* ===================================================================== *)

Section Selection.
Import TemplateMatchingFinder.

Lemma better_cases (best candidate : MatchResult) :
  (confidence candidate <= confidence best /\ better best candidate = best) \/
  (confidence best < confidence candidate /\ better best candidate = candidate).
Proof.
  unfold better.
  destruct (Qle_bool (confidence candidate) (confidence best)) eqn:E.
  - left; split; [apply Qle_bool_iff; exact E | reflexivity].
  - right; split; [| reflexivity].
    apply Qnot_le_lt; intros H; apply Qle_bool_iff in H; congruence.
Qed.

(** The invariant of the scan: the best so far splits what has been seen. *)
Lemma scan_first_highest (rest before after : list MatchResult) (best : MatchResult) :
  (forall m, In m before -> confidence m < confidence best) ->
  (forall m, In m after -> confidence m <= confidence best) ->
  first_highest (fold_left better rest best) (before ++ best :: after ++ rest).
Proof.
  revert before after best.
  induction rest as [| c rest IH]; intros before after best Hb Ha; cbn [fold_left].
  - exists before, after; rewrite app_nil_r; auto.
  - destruct (better_cases best c) as [[Hle ->] | [Hlt ->]].
    + replace (before ++ best :: after ++ c :: rest)
        with (before ++ best :: (after ++ [c]) ++ rest)
        by (rewrite <- app_assoc; reflexivity).
      apply IH; [exact Hb |].
      intros m Hm; apply in_app_or in Hm; destruct Hm as [Hm | [<- | []]]; auto.
    + replace (before ++ best :: after ++ c :: rest)
        with ((before ++ best :: after) ++ c :: [] ++ rest)
        by (rewrite <- app_assoc; reflexivity).
      apply IH; [| intros m []].
      intros m Hm; apply in_app_or in Hm; destruct Hm as [Hm | [<- | Hm]].
      * apply Qlt_trans with (confidence best); auto.
      * exact Hlt.
      * apply Qle_lt_trans with (confidence best); auto.
Qed.

Lemma selectBest_first_highest (candidates : list MatchResult) (best : MatchResult) :
  selectBest candidates = Some best -> first_highest best candidates.
Proof.
  destruct candidates as [| first rest]; cbn; [discriminate |].
  intros H; injection H as <-.
  apply (scan_first_highest rest [] [] first); intros m [].
Qed.

Lemma selectBest_nonempty (candidates : list MatchResult) :
  candidates <> [] -> exists best, selectBest candidates = Some best.
Proof.
  destruct candidates as [| first rest]; [congruence |].
  intros _; eexists; reflexivity.
Qed.

(** The first highest candidate dominates every candidate. *)
Lemma first_highest_max (best : MatchResult) (candidates : list MatchResult) :
  first_highest best candidates ->
  In best candidates /\ forall m, In m candidates -> confidence m <= confidence best.
Proof.
  intros (before & after & -> & Hb & Ha); split.
  - apply in_or_app; right; left; reflexivity.
  - intros m Hm; apply in_app_or in Hm; destruct Hm as [Hm | [<- | Hm]].
    + apply Qlt_le_weak; auto.
    + apply Qle_refl.
    + auto.
Qed.

End Selection.

Section FinderFacts.
Context {World : Type}.
Variable engine : Image -> Image -> number -> TemplateMatchingFinder.EngineResponse.
Variable rgbToGrayScale : Image -> Image.
Variable capture : Region -> World -> Image.

Let production : FinderInterface.t World :=
  TemplateMatchingFinder.finder engine rgbToGrayScale capture.

(** [findOnScreenRegion] on an adapter bound to the production finder. *)
Lemma find_with_production (s : VisionAdapter.State (World := World))
  (matchRequest : ImageMatchRequest) :
  VisionAdapter.finder (this s) = Some production ->
  fst (VisionAdapter.findOnScreenRegion matchRequest s) =
  Normal
    (let images :=
       TemplateMatchingFinder.searchImages rgbToGrayScale matchRequest
         (capture (haystackSource matchRequest) (world s)) in
     TemplateMatchingFinder.outcomeOf matchRequest
       (engine (fst images) (snd images) (minimumConfidence matchRequest))).
Proof.
  intros H; rewrite (findOnScreenRegion_run s matchRequest H); cbn.
  unfold TemplateMatchingFinder.findMatch.
  destruct (TemplateMatchingFinder.searchImages _ _ _); reflexivity.
Qed.

End FinderFacts.

(* ===================================================================== *)
(** * Text reader: life-cycle lemmas *)
(* ===================================================================== *)

Section Lifecycle.
Import Tesseract TesseractReader.

Lemma terminal_is_final (job : TesseractJob) (st : JobState) :
  (exists result, st = Succeeded result) \/ (exists message, st = Failed message) ->
  fold_left notify job st = st.
Proof.
  revert st; induction job as [| n job IH]; intros st H; cbn; [reflexivity |].
  destruct H as [[result ->] | [message ->]]; cbn; apply IH; eauto.
Qed.

Lemma progress_keeps_running (notes : list Progress) (st : JobState) :
  st = Submitted \/ st = Running ->
  let st' := fold_left notify (map OnProgress notes) st in
  st' = Submitted \/ st' = Running.
Proof.
  revert st; induction notes as [| p notes IH]; intros st H; cbn; [exact H |].
  apply IH; destruct H as [-> | ->]; cbn; auto.
Qed.

(** Progress, then an error: the job has failed, whatever is delivered later. *)
Lemma lifecycle_error (notes : list Progress) (message : string) (rest : TesseractJob) :
  lifecycle (map OnProgress notes ++ OnError message :: rest) = Failed message.
Proof.
  unfold lifecycle; rewrite fold_left_app; cbn [fold_left].
  assert (H : notify (fold_left notify (map OnProgress notes) Submitted) (OnError message)
              = Failed message).
  { destruct (progress_keeps_running notes (st := Submitted)) as [-> | ->];
      auto. }
  rewrite H; apply terminal_is_final; eauto.
Qed.

End Lifecycle.

(* ===================================================================== *)
(** * The model at work *)
(* ===================================================================== *)

Example readText_asks_for_english :
  VisionAdapter.readText Doubles.pixel None (Doubles.adapter None) =
  (Normal (Fulfilled "page"),
   {| this := this (Doubles.adapter None);
      world := [Doubles.Recognized Doubles.pixel ENG];
      assigned := assigned (Doubles.adapter None) |}).
Proof. reflexivity. Qed.

Example grabScreenRegion_asks_the_provider :
  world (snd (VisionAdapter.grabScreenRegion Doubles.desktop (Doubles.adapter None))) =
  [Doubles.Grabbed (Some Doubles.desktop)].
Proof. reflexivity. Qed.

Example unbound_finder_is_a_rejection :
  fst (VisionAdapter.findOnScreenRegion
         (mkImageMatchRequest Doubles.icon Doubles.desktop 0.9)
         {| this := VisionAdapter.blank; world := ([] : Doubles.World); assigned := [] |})
  = Normal (Rejected (TypeError "finder")).
Proof. reflexivity. Qed.

Example unbound_screen_is_a_throw :
  fst (VisionAdapter.grabScreen
         {| this := VisionAdapter.blank; world := ([] : Doubles.World); assigned := [] |})
  = Throw (TypeError "screen").
Proof. reflexivity. Qed.

Example engine_fault_is_an_engine_failure :
  fst (VisionAdapter.findOnScreenRegion
         (mkImageMatchRequest (mkImage 0 0 [] None) Doubles.desktop 0.9)
         (Doubles.adapter (Some Doubles.config)))
  = Normal (Rejected (EngineFailure "unreadable buffer")).
Proof. reflexivity. Qed.

Example no_candidate_is_no_match :
  TemplateMatchingFinder.outcomeOf
    (mkImageMatchRequest Doubles.icon Doubles.desktop 0)
    (TemplateMatchingFinder.Candidates [])
  = Rejected NoMatchFound.
Proof. reflexivity. Qed.

Example tie_goes_to_the_first :
  TemplateMatchingFinder.selectBest
    [Doubles.at_ 0.75 0; Doubles.at_ 0.995 40; Doubles.at_ 0.995 80]
  = Some (Doubles.at_ 0.995 40).
Proof. reflexivity. Qed.

Example readWords_walks_the_page :
  fst (VisionAdapter.readWords Doubles.pixel None (Doubles.adapter (Some Doubles.config)))
  = Normal (Fulfilled [mkOCRResult "hello" 0.9 (mkRegion 0 0 (10 - 0) (4 - 0))]).
Proof. reflexivity. Qed.

Example progress_alone_never_settles :
  TesseractReader.terminal Tesseract.page_text
    (TesseractReader.lifecycle
       [Tesseract.OnProgress (Tesseract.mkProgress "loading" 0.5 None)])
  = Pending.
Proof. reflexivity. Qed.

Example native_operations_reach_the_collaborators :
  world (NativeAdapter.after_all
           [NativeAdapter.SetMouseDelay 5; NativeAdapter.LeftClick;
            NativeAdapter.Type_ "hi"; NativeAdapter.Click ["ctrl"; "c"];
            NativeAdapter.Copy "text"]
           (Doubles.nativeAdapter None))
  = [Doubles.Pointer "delay"; Doubles.Pointer "left"; Doubles.Keys "hi";
     Doubles.Keys "ctrl+c"; Doubles.Clip "text"].
Proof. reflexivity. Qed.

Example configured_keyboard_is_the_one_used :
  fst (NativeAdapter.type "hi"
         (Doubles.nativeAdapter
            (Some (NativeAdapter.mkConfig None (Some Doubles.deadKeyboard) None))))
  = Throw (OtherError "no driver").
Proof. reflexivity. Qed.

(* ===================================================================== *)
(** * Properties of the facades *)
(* ===================================================================== *)

(** C1.  An adapter bound to the production finder, in use after any number
    of operations: for a minimum confidence of at least 0.99 the answer of
    [findOnScreenRegion] is the finder's decision on what the engine reports
    for the haystack and the needle as they are; below 0.99 it is the
    decision on what the engine reports for the grayscale conversions of
    both.  The boundary 0.99 itself is on the colour side. *)
Theorem finder_colour_threshold :
  forall (World : Type)
    (engine : Image -> Image -> number -> TemplateMatchingFinder.EngineResponse)
    (rgbToGrayScale : Image -> Image) (capture : Region -> World -> Image)
    (ImageWriter : DataSink.t World) (TemplateMatchingFinder : FinderInterface.t World)
    (ScreenAction : ScreenActionProvider.t World) (TesseractReader : TextReader.t World)
    (config : option VisionAdapter.VisionAdapterConfig) (w : World)
    (calls : list VisionAdapter.Invocation) (matchRequest : ImageMatchRequest),
    or_default config VisionAdapter.cfg_finder TemplateMatchingFinder =
      TemplateMatchingFinder.finder engine rgbToGrayScale capture ->
    let s :=
      VisionAdapter.after_all calls
        (VisionAdapter.new ImageWriter TemplateMatchingFinder ScreenAction TesseractReader
           config w) in
    let haystack := capture (haystackSource matchRequest) (world s) in
    let min := minimumConfidence matchRequest in
    (0.99 <= min ->
     fst (VisionAdapter.findOnScreenRegion matchRequest s) =
     Normal (TemplateMatchingFinder.outcomeOf matchRequest
               (engine haystack (needle matchRequest) min))) /\
    (min < 0.99 ->
     fst (VisionAdapter.findOnScreenRegion matchRequest s) =
     Normal (TemplateMatchingFinder.outcomeOf matchRequest
               (engine (rgbToGrayScale haystack) (rgbToGrayScale (needle matchRequest)) min))).
Proof.
  intros World engine gray capture IW TMF SA TR config w calls request Hfinder s haystack min.
  assert (Hbound : VisionAdapter.finder (this s) =
                   Some (TemplateMatchingFinder.finder engine gray capture)).
  { subst s; rewrite vision_in_use, vision_new_this; cbn; congruence. }
  pose proof (find_with_production s request Hbound) as Hrun.
  unfold TemplateMatchingFinder.searchImages, TemplateMatchingFinder.colourThreshold in Hrun.
  fold haystack min in Hrun.
  split; intros Hmin.
  - apply Qle_bool_iff in Hmin; rewrite Hmin in Hrun; exact Hrun.
  - destruct (Qle_bool 0.99 min) eqn:E.
    + apply Qle_bool_iff in E; exfalso; exact (Qlt_not_le _ _ Hmin E).
    + exact Hrun.
Qed.

(** A search at the boundary is done in colour, a search just below it in
    grayscale. *)
Lemma finder_colour_threshold_witness :
  fst (VisionAdapter.findOnScreenRegion
         (mkImageMatchRequest Doubles.icon Doubles.desktop 0.99)
         (Doubles.adapter (Some Doubles.config)))
  = Normal (Fulfilled (Doubles.at_ 0.995 40)) /\
  fst (VisionAdapter.findOnScreenRegion
         (mkImageMatchRequest Doubles.icon Doubles.desktop 0.98)
         (Doubles.adapter (Some Doubles.config)))
  = Normal (Rejected NoMatchFound).
Proof.
  split.
  - apply (@finder_colour_threshold Doubles.World Doubles.engine Doubles.gray Doubles.capture
             Doubles.sink Doubles.throwingFinder Doubles.screen Doubles.textReader
             (Some Doubles.config) [] []
             (mkImageMatchRequest Doubles.icon Doubles.desktop 0.99) eq_refl).
    simpl; unfold Qle; simpl; lia.
  - apply (@finder_colour_threshold Doubles.World Doubles.engine Doubles.gray Doubles.capture
             Doubles.sink Doubles.throwingFinder Doubles.screen Doubles.textReader
             (Some Doubles.config) [] []
             (mkImageMatchRequest Doubles.icon Doubles.desktop 0.98) eq_refl).
    simpl; unfold Qlt; simpl; lia.
Defined.

(** C2 (amended).  An adapter bound to the production finder, in use: when
    the engine reports candidates of which at least one reaches the minimum
    confidence of the request, [findOnScreenRegion] is fulfilled with the
    first candidate of highest confidence.  In particular, from candidates
    with confidences 0.72, 0.95 and 0.81 it returns the second one. *)
Theorem finder_returns_first_highest :
  forall (World : Type)
    (engine : Image -> Image -> number -> TemplateMatchingFinder.EngineResponse)
    (rgbToGrayScale : Image -> Image) (capture : Region -> World -> Image)
    (ImageWriter : DataSink.t World) (TemplateMatchingFinder : FinderInterface.t World)
    (ScreenAction : ScreenActionProvider.t World) (TesseractReader : TextReader.t World)
    (config : option VisionAdapter.VisionAdapterConfig) (w : World)
    (calls : list VisionAdapter.Invocation) (matchRequest : ImageMatchRequest)
    (candidates : list MatchResult),
    or_default config VisionAdapter.cfg_finder TemplateMatchingFinder =
      TemplateMatchingFinder.finder engine rgbToGrayScale capture ->
    let s :=
      VisionAdapter.after_all calls
        (VisionAdapter.new ImageWriter TemplateMatchingFinder ScreenAction TesseractReader
           config w) in
    let images :=
      TemplateMatchingFinder.searchImages rgbToGrayScale matchRequest
        (capture (haystackSource matchRequest) (world s)) in
    engine (fst images) (snd images) (minimumConfidence matchRequest) =
      TemplateMatchingFinder.Candidates candidates ->
    (exists m, In m candidates /\ minimumConfidence matchRequest <= confidence m) ->
    (exists best,
        first_highest best candidates /\
        fst (VisionAdapter.findOnScreenRegion matchRequest s) = Normal (Fulfilled best)) /\
    (forall a b c,
        candidates = [a; b; c] ->
        confidence a = 0.72 -> confidence b = 0.95 -> confidence c = 0.81 ->
        fst (VisionAdapter.findOnScreenRegion matchRequest s) = Normal (Fulfilled b)).
Proof.
  intros World engine gray capture IW TMF SA TR config w calls request candidates
         Hfinder s images Hengine (m & Hin & Hmin).
  assert (Hbound : VisionAdapter.finder (this s) =
                   Some (TemplateMatchingFinder.finder engine gray capture)).
  { subst s; rewrite vision_in_use, vision_new_this; cbn; congruence. }
  pose proof (find_with_production s request Hbound) as Hrun.
  cbv zeta in Hrun; fold images in Hrun; rewrite Hengine in Hrun.
  destruct (selectBest_nonempty (candidates := candidates)) as [best Hbest].
  { intros ->; destruct Hin. }
  pose proof (selectBest_first_highest _ Hbest) as Hfirst.
  assert (Hclears : Qle_bool (minimumConfidence request) (confidence best) = true).
  { apply Qle_bool_iff, Qle_trans with (confidence m); [exact Hmin |].
    apply (first_highest_max Hfirst); exact Hin. }
  assert (Hresult : fst (VisionAdapter.findOnScreenRegion request s) = Normal (Fulfilled best)).
  { rewrite Hrun; cbn; rewrite Hbest, Hclears; reflexivity. }
  split.
  - exists best; split; assumption.
  - intros a b c -> Ha Hb Hc.
    rewrite Hresult; do 2 f_equal.
    cbn in Hbest; unfold TemplateMatchingFinder.better in Hbest.
    rewrite Ha, Hb in Hbest; cbn in Hbest.
    rewrite Hc, Hb in Hbest; cbn in Hbest.
    congruence.
Qed.

(** The 0.95 candidate among 0.72, 0.95 and 0.81, asked for with a minimum
    confidence of 0.80. *)
Lemma finder_returns_first_highest_witness :
  fst (VisionAdapter.findOnScreenRegion
         (mkImageMatchRequest Doubles.icon Doubles.desktop 0.80)
         (Doubles.adapter (Some Doubles.config)))
  = Normal (Fulfilled (Doubles.at_ 0.95 40)).
Proof.
  apply (proj2
           (@finder_returns_first_highest Doubles.World Doubles.engine Doubles.gray
              Doubles.capture Doubles.sink Doubles.throwingFinder Doubles.screen
              Doubles.textReader (Some Doubles.config) [] []
              (mkImageMatchRequest Doubles.icon Doubles.desktop 0.80)
              [Doubles.at_ 0.72 0; Doubles.at_ 0.95 40; Doubles.at_ 0.81 80]
              eq_refl eq_refl
              (ex_intro _ (Doubles.at_ 0.95 40)
                 (conj (or_intror (or_introl eq_refl))
                       (Qle_bool_imp_le 0.80 0.95 eq_refl))))
           (Doubles.at_ 0.72 0) (Doubles.at_ 0.95 40) (Doubles.at_ 0.81 80));
    reflexivity.
Defined.

(** C2 as first stated fails: the engine answers with three candidates, the
    best of confidence 0.5, and a request asking for 0.8 is not answered with
    any of them. *)
Lemma finder_first_highest_counterexample :
  Doubles.engine (Doubles.gray Doubles.pixel) (Doubles.gray Doubles.pixel) 0.8 =
    TemplateMatchingFinder.Candidates
      [Doubles.at_ 0.3 0; Doubles.at_ 0.5 7; Doubles.at_ 0.5 9] /\
  first_highest (Doubles.at_ 0.5 7)
    [Doubles.at_ 0.3 0; Doubles.at_ 0.5 7; Doubles.at_ 0.5 9] /\
  fst (VisionAdapter.findOnScreenRegion
         (mkImageMatchRequest Doubles.pixel Doubles.desktop 0.8)
         (Doubles.adapter (Some Doubles.config)))
  = Normal (Rejected NoMatchFound) /\
  ~ (exists best,
        fst (VisionAdapter.findOnScreenRegion
               (mkImageMatchRequest Doubles.pixel Doubles.desktop 0.8)
               (Doubles.adapter (Some Doubles.config)))
        = Normal (Fulfilled best)).
Proof.
  split; [reflexivity | split; [| split]].
  - exists [Doubles.at_ 0.3 0], [Doubles.at_ 0.5 9]; split; [reflexivity |].
    split; intros m [<- | []]; cbn.
    + reflexivity.
    + apply Qle_refl.
  - reflexivity.
  - intros [best H]; discriminate H.
Qed.

(** C3.  An adapter bound to the production finder, in use: when every
    candidate the engine reports is below the minimum confidence of the
    request, also when it reports none, [findOnScreenRegion] is rejected
    with [NoMatchFound]; it is never fulfilled. *)
Theorem finder_no_match_found :
  forall (World : Type)
    (engine : Image -> Image -> number -> TemplateMatchingFinder.EngineResponse)
    (rgbToGrayScale : Image -> Image) (capture : Region -> World -> Image)
    (ImageWriter : DataSink.t World) (TemplateMatchingFinder : FinderInterface.t World)
    (ScreenAction : ScreenActionProvider.t World) (TesseractReader : TextReader.t World)
    (config : option VisionAdapter.VisionAdapterConfig) (w : World)
    (calls : list VisionAdapter.Invocation) (matchRequest : ImageMatchRequest)
    (candidates : list MatchResult),
    or_default config VisionAdapter.cfg_finder TemplateMatchingFinder =
      TemplateMatchingFinder.finder engine rgbToGrayScale capture ->
    let s :=
      VisionAdapter.after_all calls
        (VisionAdapter.new ImageWriter TemplateMatchingFinder ScreenAction TesseractReader
           config w) in
    let images :=
      TemplateMatchingFinder.searchImages rgbToGrayScale matchRequest
        (capture (haystackSource matchRequest) (world s)) in
    engine (fst images) (snd images) (minimumConfidence matchRequest) =
      TemplateMatchingFinder.Candidates candidates ->
    (forall m, In m candidates -> confidence m < minimumConfidence matchRequest) ->
    fst (VisionAdapter.findOnScreenRegion matchRequest s) = Normal (Rejected NoMatchFound) /\
    (forall result,
        fst (VisionAdapter.findOnScreenRegion matchRequest s) <> Normal (Fulfilled result)).
Proof.
  intros World engine gray capture IW TMF SA TR config w calls request candidates
         Hfinder s images Hengine Hbelow.
  assert (Hbound : VisionAdapter.finder (this s) =
                   Some (TemplateMatchingFinder.finder engine gray capture)).
  { subst s; rewrite vision_in_use, vision_new_this; cbn; congruence. }
  pose proof (find_with_production s request Hbound) as Hrun.
  cbv zeta in Hrun; fold images in Hrun; rewrite Hengine in Hrun.
  assert (Hresult : fst (VisionAdapter.findOnScreenRegion request s)
                    = Normal (Rejected NoMatchFound)).
  { rewrite Hrun; cbn.
    destruct (TemplateMatchingFinder.selectBest candidates) as [best |] eqn:Hbest;
      [| reflexivity].
    pose proof (selectBest_first_highest _ Hbest) as Hfirst.
    destruct (Qle_bool (minimumConfidence request) (confidence best)) eqn:E;
      [| reflexivity].
    apply Qle_bool_iff in E; exfalso.
    apply (Qlt_not_le _ _ (Hbelow best (proj1 (first_highest_max Hfirst)))); exact E. }
  split; [exact Hresult |].
  intros result H; rewrite Hresult in H; discriminate H.
Qed.

(** Candidates of confidence at most 0.5 against a minimum of 0.8. *)
Lemma finder_no_match_found_witness :
  fst (VisionAdapter.findOnScreenRegion
         (mkImageMatchRequest Doubles.pixel Doubles.desktop 0.8)
         (Doubles.adapter (Some Doubles.config)))
  = Normal (Rejected NoMatchFound).
Proof.
  apply (@finder_no_match_found Doubles.World Doubles.engine Doubles.gray
           Doubles.capture Doubles.sink Doubles.throwingFinder Doubles.screen
           Doubles.textReader (Some Doubles.config) [] []
           (mkImageMatchRequest Doubles.pixel Doubles.desktop 0.8)
           [Doubles.at_ 0.3 0; Doubles.at_ 0.5 7; Doubles.at_ 0.5 9]
           eq_refl eq_refl).
  simpl; intros m [<- | [<- | [<- | []]]]; reflexivity.
Defined.

(** C5.  An adapter bound to the production text reader, in use: when the
    job the OCR engine runs for an image delivers an error, after any number
    of progress notifications, [readText] and [readWords] are rejected with
    an [OcrFailure] carrying the message of the engine, and so are
    [readPage] and [readWords] of the reader; none is fulfilled, be it with
    an empty string, an empty sequence or a part of a page. *)
Theorem ocr_failure_is_rejected :
  forall (World : Type)
    (recognize : Image -> Language -> World -> Tesseract.TesseractJob * World)
    (ImageWriter : DataSink.t World) (TemplateMatchingFinder : FinderInterface.t World)
    (ScreenAction : ScreenActionProvider.t World) (TesseractReader : TextReader.t World)
    (config : option VisionAdapter.VisionAdapterConfig) (w : World)
    (calls : list VisionAdapter.Invocation) (image : Image) (language : option Language)
    (notes : list Tesseract.Progress) (message : string) (rest : Tesseract.TesseractJob)
    (w' : World),
    or_default config VisionAdapter.cfg_screenReader TesseractReader =
      TesseractReader.reader recognize ->
    let s :=
      VisionAdapter.after_all calls
        (VisionAdapter.new ImageWriter TemplateMatchingFinder ScreenAction TesseractReader
           config w) in
    let tag := VisionAdapter.default_language language in
    recognize image tag (world s) =
      (map Tesseract.OnProgress notes ++ Tesseract.OnError message :: rest, w') ->
    (fst (VisionAdapter.readText image language s) = Normal (Rejected (OcrFailure message)) /\
     fst (VisionAdapter.readWords image language s) = Normal (Rejected (OcrFailure message))) /\
    (fst (TesseractReader.readPage recognize image tag (world s))
       = Returns (Rejected (OcrFailure message)) /\
     fst (TesseractReader.readWords recognize image tag (world s))
       = Returns (Rejected (OcrFailure message))) /\
    (forall page, fst (VisionAdapter.readText image language s) <> Normal (Fulfilled page)) /\
    (forall words, fst (VisionAdapter.readWords image language s) <> Normal (Fulfilled words)).
Proof.
  intros World recognize IW TMF SA TR config w calls image language notes message rest w'
         Hreader s tag Hjob.
  assert (Hbound : VisionAdapter.screenReader (this s) =
                   Some (TesseractReader.reader recognize)).
  { subst s; rewrite vision_in_use, vision_new_this; cbn; congruence. }
  assert (Hpage : fst (TesseractReader.readPage recognize image tag (world s))
                  = Returns (Rejected (OcrFailure message))).
  { unfold TesseractReader.readPage; rewrite Hjob, lifecycle_error; reflexivity. }
  assert (Hwords : fst (TesseractReader.readWords recognize image tag (world s))
                   = Returns (Rejected (OcrFailure message))).
  { unfold TesseractReader.readWords; rewrite Hjob, lifecycle_error; reflexivity. }
  assert (Htext : fst (VisionAdapter.readText image language s)
                  = Normal (Rejected (OcrFailure message))).
  { unfold VisionAdapter.readText; cbv zeta; fold tag.
    rewrite (run_delegate _ _ _ s Hbound); unfold call; cbn.
    destruct (TesseractReader.readPage recognize image tag (world s)) as [[p | e] w0];
      cbn in *; congruence. }
  assert (Hread : fst (VisionAdapter.readWords image language s)
                  = Normal (Rejected (OcrFailure message))).
  { unfold VisionAdapter.readWords; cbv zeta; fold tag.
    rewrite (run_delegate _ _ _ s Hbound); unfold call; cbn.
    destruct (TesseractReader.readWords recognize image tag (world s)) as [[p | e] w0];
      cbn in *; congruence. }
  repeat split; try assumption.
  - intros page H; rewrite Htext in H; discriminate H.
  - intros words H; rewrite Hread in H; discriminate H.
Qed.

(** A language without trained data: one progress notification, then the
    error of the engine. *)
Lemma ocr_failure_is_rejected_witness :
  fst (VisionAdapter.readText Doubles.pixel (Some (OtherLanguage "xyz"))
         (Doubles.adapter (Some Doubles.config)))
    = Normal (Rejected (OcrFailure "missing traineddata")) /\
  fst (VisionAdapter.readWords Doubles.pixel (Some (OtherLanguage "xyz"))
         (Doubles.adapter (Some Doubles.config)))
    = Normal (Rejected (OcrFailure "missing traineddata")).
Proof.
  apply (@ocr_failure_is_rejected Doubles.World Doubles.recognize Doubles.sink
           Doubles.throwingFinder Doubles.screen Doubles.textReader
           (Some Doubles.config) [] [] Doubles.pixel (Some (OtherLanguage "xyz"))
           [Tesseract.mkProgress "loading" 0.5 None] "missing traineddata"
           [Tesseract.OnResult Doubles.hello]
           [Doubles.Recognized Doubles.pixel (OtherLanguage "xyz")]
           eq_refl eq_refl).
Defined.

(** C4.  An adapter in use, whatever finder it is bound to:
    [findOnScreenRegion] hands the request to [findMatch] of the finder, once,
    and returns normally with the deferred result of that call, a
    synchronous throw being turned into a rejection with the thrown error.
    A finder that throws and a finder that rejects are therefore seen alike,
    and a fulfilled answer is always the finder's own. *)
Theorem findOnScreenRegion_uniform_failure :
  forall (World : Type)
    (ImageWriter : DataSink.t World) (TemplateMatchingFinder : FinderInterface.t World)
    (ScreenAction : ScreenActionProvider.t World) (TesseractReader : TextReader.t World)
    (config : option VisionAdapter.VisionAdapterConfig) (w : World)
    (calls : list VisionAdapter.Invocation) (matchRequest : ImageMatchRequest),
    let s :=
      VisionAdapter.after_all calls
        (VisionAdapter.new ImageWriter TemplateMatchingFinder ScreenAction TesseractReader
           config w) in
    let finder := or_default config VisionAdapter.cfg_finder TemplateMatchingFinder in
    let answer := FinderInterface.findMatch finder matchRequest (world s) in
    let found := VisionAdapter.findOnScreenRegion matchRequest s in
    found = (Normal (deferred (fst answer)),
             {| this := this s; world := snd answer; assigned := assigned s |}) /\
    (forall e, fst answer = Throws e -> fst found = Normal (Rejected e)) /\
    (forall e, fst answer = Returns (Rejected e) -> fst found = Normal (Rejected e)) /\
    (forall result, fst answer = Returns (Fulfilled result) ->
                    fst found = Normal (Fulfilled result)) /\
    (forall result, fst found = Normal (Fulfilled result) ->
                    fst answer = Returns (Fulfilled result)).
Proof.
  intros World IW TMF SA TR config w calls request s finder answer found.
  assert (Hbound : VisionAdapter.finder (this s) = Some finder).
  { subst s; rewrite vision_in_use, vision_new_this; reflexivity. }
  assert (Hrun := findOnScreenRegion_run s request Hbound).
  fold answer found in Hrun.
  split; [exact Hrun |].
  rewrite Hrun; cbn [fst].
  repeat split.
  - intros e ->; reflexivity.
  - intros e ->; reflexivity.
  - intros result ->; reflexivity.
  - intros result H; destruct (fst answer) as [[r | e |] | e]; cbn in H;
      congruence.
Qed.

(** A finder that throws and a finder that rejects both end in a rejection. *)
Lemma findOnScreenRegion_uniform_failure_witness :
  fst (VisionAdapter.findOnScreenRegion
         (mkImageMatchRequest Doubles.icon Doubles.desktop 0.9)
         (Doubles.adapter None))
    = Normal (Rejected (OtherError "synchronous")) /\
  fst (VisionAdapter.findOnScreenRegion
         (mkImageMatchRequest Doubles.icon Doubles.desktop 0.9)
         (Doubles.adapter
            (Some (VisionAdapter.mkConfig (Some Doubles.rejectingFinder) None None None))))
    = Normal (Rejected (OtherError "asynchronous")).
Proof.
  split.
  - apply (proj1 (proj2
             (@findOnScreenRegion_uniform_failure Doubles.World Doubles.sink
                Doubles.throwingFinder Doubles.screen Doubles.textReader None [] []
                (mkImageMatchRequest Doubles.icon Doubles.desktop 0.9)))).
    reflexivity.
  - apply (proj1 (proj2 (proj2
             (@findOnScreenRegion_uniform_failure Doubles.World Doubles.sink
                Doubles.throwingFinder Doubles.screen Doubles.textReader
                (Some (VisionAdapter.mkConfig (Some Doubles.rejectingFinder) None None None))
                [] [] (mkImageMatchRequest Doubles.icon Doubles.desktop 0.9))))).
    reflexivity.
Defined.

(** C6.  An adapter in use, whatever text reader it is bound to: without a
    language, [readText] is [readPage] of the reader and [readWords] is
    [readWords] of the reader, both with the English tag; with a language,
    that language is handed over as it is. *)
Theorem read_defaults_to_english :
  forall (World : Type)
    (ImageWriter : DataSink.t World) (TemplateMatchingFinder : FinderInterface.t World)
    (ScreenAction : ScreenActionProvider.t World) (TesseractReader : TextReader.t World)
    (config : option VisionAdapter.VisionAdapterConfig) (w : World)
    (calls : list VisionAdapter.Invocation) (image : Image),
    let s :=
      VisionAdapter.after_all calls
        (VisionAdapter.new ImageWriter TemplateMatchingFinder ScreenAction TesseractReader
           config w) in
    let reader := or_default config VisionAdapter.cfg_screenReader TesseractReader in
    VisionAdapter.readText image None s = call (TextReader.readPage reader image ENG) s /\
    VisionAdapter.readWords image None s = call (TextReader.readWords reader image ENG) s /\
    (forall language,
        VisionAdapter.readText image (Some language) s =
        call (TextReader.readPage reader image language) s) /\
    (forall language,
        VisionAdapter.readWords image (Some language) s =
        call (TextReader.readWords reader image language) s).
Proof.
  intros World IW TMF SA TR config w calls image s reader.
  assert (Hbound : VisionAdapter.screenReader (this s) = Some reader).
  { subst s; rewrite vision_in_use, vision_new_this; reflexivity. }
  repeat split; intros;
    first [ apply (run_delegate _ _ (fun r => TextReader.readPage r image _) s Hbound)
          | apply (run_delegate _ _ (fun r => TextReader.readWords r image _) s Hbound) ].
Qed.

(** C7.  Whatever configuration record a constructor is given, or none at
    all, every field of the adapter is bound to the collaborator the record
    sets and to the production default where the record sets none, and it is
    still bound so after any number of operations.  This holds for the
    finder, the screen provider, the text reader and the sink of
    [VisionAdapter] and for the clipboard, the keyboard and the mouse of
    [NativeAdapter]. *)
Theorem constructor_binds_configured_or_default :
  forall (World Point Key Button : Type)
    (ImageWriter : DataSink.t World) (TemplateMatchingFinder : FinderInterface.t World)
    (ScreenAction : ScreenActionProvider.t World) (TesseractReader : TextReader.t World)
    (ClipboardAction : ClipboardActionProvider.t World)
    (KeyboardAction : KeyboardActionProvider.t World Key)
    (MouseAction : MouseActionProvider.t World Point Button)
    (visionConfig : option VisionAdapter.VisionAdapterConfig)
    (nativeConfig : option NativeAdapter.NativeAdapterConfig) (w : World)
    (visionCalls : list VisionAdapter.Invocation)
    (nativeCalls : list NativeAdapter.Invocation),
    let vision :=
      this (VisionAdapter.after_all visionCalls
              (VisionAdapter.new ImageWriter TemplateMatchingFinder ScreenAction
                 TesseractReader visionConfig w)) in
    let native :=
      this (NativeAdapter.after_all nativeCalls
              (NativeAdapter.new ClipboardAction KeyboardAction MouseAction
                 nativeConfig w)) in
    (bound_as (configured visionConfig VisionAdapter.cfg_finder) TemplateMatchingFinder
       (VisionAdapter.finder vision) /\
     bound_as (configured visionConfig VisionAdapter.cfg_screen) ScreenAction
       (VisionAdapter.screen vision) /\
     bound_as (configured visionConfig VisionAdapter.cfg_screenReader) TesseractReader
       (VisionAdapter.screenReader vision) /\
     bound_as (configured visionConfig VisionAdapter.cfg_dataSink) ImageWriter
       (VisionAdapter.dataSink vision)) /\
    (bound_as (configured nativeConfig NativeAdapter.cfg_clipboard) ClipboardAction
       (NativeAdapter.clipboard native) /\
     bound_as (configured nativeConfig NativeAdapter.cfg_keyboard) KeyboardAction
       (NativeAdapter.keyboard native) /\
     bound_as (configured nativeConfig NativeAdapter.cfg_mouse) MouseAction
       (NativeAdapter.mouse native)).
Proof.
  intros World Point Key Button IW TMF SA TR CA KA MA visionConfig nativeConfig w
         visionCalls nativeCalls vision native.
  subst vision native.
  rewrite vision_in_use, vision_new_this.
  rewrite (proj1 (native_after_all_frame nativeCalls _)), native_new_this.
  cbn [VisionAdapter.finder VisionAdapter.screen VisionAdapter.screenReader
       VisionAdapter.dataSink NativeAdapter.clipboard NativeAdapter.keyboard
       NativeAdapter.mouse].
  repeat split; apply bound_as_or_default.
Qed.

(** C8.  An adapter in use, whatever sink it is bound to, configured or
    default: [saveImage] is [store] of that sink on the same image and the
    same path, effect and deferred completion included; when the sink
    reports a [SinkWriteFailure], so does [saveImage], on the channel the
    sink used. *)
Theorem saveImage_delegates_to_sink :
  forall (World : Type)
    (ImageWriter : DataSink.t World) (TemplateMatchingFinder : FinderInterface.t World)
    (ScreenAction : ScreenActionProvider.t World) (TesseractReader : TextReader.t World)
    (config : option VisionAdapter.VisionAdapterConfig) (w : World)
    (calls : list VisionAdapter.Invocation) (image : Image) (path : string),
    let s :=
      VisionAdapter.after_all calls
        (VisionAdapter.new ImageWriter TemplateMatchingFinder ScreenAction TesseractReader
           config w) in
    let sink := or_default config VisionAdapter.cfg_dataSink ImageWriter in
    let stored := DataSink.store sink image path (world s) in
    VisionAdapter.saveImage image path s = call (DataSink.store sink image path) s /\
    world (snd (VisionAdapter.saveImage image path s)) = snd stored /\
    (forall completion, fst stored = Returns completion ->
                        fst (VisionAdapter.saveImage image path s) = Normal completion) /\
    (forall msg, fst stored = Returns (Rejected (SinkWriteFailure msg)) ->
                 fst (VisionAdapter.saveImage image path s)
                 = Normal (Rejected (SinkWriteFailure msg))) /\
    (forall msg, fst stored = Throws (SinkWriteFailure msg) ->
                 fst (VisionAdapter.saveImage image path s) = Throw (SinkWriteFailure msg)).
Proof.
  intros World IW TMF SA TR config w calls image path s sink stored.
  assert (Hbound : VisionAdapter.dataSink (this s) = Some sink).
  { subst s; rewrite vision_in_use, vision_new_this; reflexivity. }
  assert (Hrun : VisionAdapter.saveImage image path s
                 = call (DataSink.store sink image path) s).
  { apply (run_delegate _ _ (fun d => DataSink.store d image path) s Hbound). }
  split; [exact Hrun |].
  rewrite Hrun; unfold call; fold stored.
  destruct stored as [[p | e] w0]; cbn; repeat split; intros; congruence.
Qed.

(** A sink on a read-only volume: the journal shows the single [store] with
    the image and the path, and the failure reaches the caller. *)
Lemma saveImage_delegates_to_sink_witness :
  fst (VisionAdapter.saveImage Doubles.icon "/tmp/icon.png"
         (Doubles.adapter (Some Doubles.config)))
    = Normal (Rejected (SinkWriteFailure "EACCES")) /\
  world (snd (VisionAdapter.saveImage Doubles.icon "/tmp/icon.png"
                (Doubles.adapter (Some Doubles.config))))
    = [Doubles.Stored Doubles.icon "/tmp/icon.png"].
Proof.
  split.
  - apply (proj1 (proj2 (proj2 (proj2
             (@saveImage_delegates_to_sink Doubles.World Doubles.sink
                Doubles.throwingFinder Doubles.screen Doubles.textReader
                (Some Doubles.config) [] [] Doubles.icon "/tmp/icon.png"))))).
    reflexivity.
  - reflexivity.
Defined.

(** C9.  An adapter in use, whatever screen provider it is bound to:
    [grabScreen], [grabScreenRegion], [screenWidth], [screenHeight] and
    [screenSize] are the operations of the same name of the provider, on the
    same arguments: same effect on the world, same completion, same deferred
    result. *)
Theorem screen_operations_delegate :
  forall (World : Type)
    (ImageWriter : DataSink.t World) (TemplateMatchingFinder : FinderInterface.t World)
    (ScreenAction : ScreenActionProvider.t World) (TesseractReader : TextReader.t World)
    (config : option VisionAdapter.VisionAdapterConfig) (w : World)
    (calls : list VisionAdapter.Invocation) (region : Region),
    let s :=
      VisionAdapter.after_all calls
        (VisionAdapter.new ImageWriter TemplateMatchingFinder ScreenAction TesseractReader
           config w) in
    let provider := or_default config VisionAdapter.cfg_screen ScreenAction in
    VisionAdapter.grabScreen s = call (ScreenActionProvider.grabScreen provider) s /\
    VisionAdapter.grabScreenRegion region s =
      call (ScreenActionProvider.grabScreenRegion provider region) s /\
    VisionAdapter.screenWidth s = call (ScreenActionProvider.screenWidth provider) s /\
    VisionAdapter.screenHeight s = call (ScreenActionProvider.screenHeight provider) s /\
    VisionAdapter.screenSize s = call (ScreenActionProvider.screenSize provider) s.
Proof.
  intros World IW TMF SA TR config w calls region s provider.
  assert (Hbound : VisionAdapter.screen (this s) = Some provider).
  { subst s; rewrite vision_in_use, vision_new_this; reflexivity. }
  repeat split.
  - apply (run_delegate _ _ (fun p => ScreenActionProvider.grabScreen p) s Hbound).
  - apply (run_delegate _ _ (fun p => ScreenActionProvider.grabScreenRegion p region) s Hbound).
  - apply (run_delegate _ _ (fun p => ScreenActionProvider.screenWidth p) s Hbound).
  - apply (run_delegate _ _ (fun p => ScreenActionProvider.screenHeight p) s Hbound).
  - apply (run_delegate _ _ (fun p => ScreenActionProvider.screenSize p) s Hbound).
Qed.

(** C10.  The constructor of each adapter assigns every field exactly once;
    afterwards every field holds a collaborator, and no sequence of public
    operations assigns a field again or changes what a field holds. *)
Theorem collaborators_are_bound_once :
  forall (World Point Key Button : Type)
    (ImageWriter : DataSink.t World) (TemplateMatchingFinder : FinderInterface.t World)
    (ScreenAction : ScreenActionProvider.t World) (TesseractReader : TextReader.t World)
    (ClipboardAction : ClipboardActionProvider.t World)
    (KeyboardAction : KeyboardActionProvider.t World Key)
    (MouseAction : MouseActionProvider.t World Point Button)
    (visionConfig : option VisionAdapter.VisionAdapterConfig)
    (nativeConfig : option NativeAdapter.NativeAdapterConfig) (w : World)
    (visionCalls : list VisionAdapter.Invocation)
    (nativeCalls : list NativeAdapter.Invocation),
    let vision :=
      VisionAdapter.new ImageWriter TemplateMatchingFinder ScreenAction TesseractReader
        visionConfig w in
    let native :=
      NativeAdapter.new ClipboardAction KeyboardAction MouseAction nativeConfig w in
    (assigned vision =
       [VisionAdapter.F_dataSink; VisionAdapter.F_finder; VisionAdapter.F_screen;
        VisionAdapter.F_screenReader] /\
     (exists dataSink finder screen screenReader,
         this vision =
         VisionAdapter.mk (Some dataSink) (Some finder) (Some screen) (Some screenReader)) /\
     this (VisionAdapter.after_all visionCalls vision) = this vision /\
     assigned (VisionAdapter.after_all visionCalls vision) = assigned vision) /\
    (assigned native =
       [NativeAdapter.F_clipboard; NativeAdapter.F_keyboard; NativeAdapter.F_mouse] /\
     (exists clipboard keyboard mouse,
         this native = NativeAdapter.mk (Some clipboard) (Some keyboard) (Some mouse)) /\
     this (NativeAdapter.after_all nativeCalls native) = this native /\
     assigned (NativeAdapter.after_all nativeCalls native) = assigned native).
Proof.
  intros World Point Key Button IW TMF SA TR CA KA MA visionConfig nativeConfig w
         visionCalls nativeCalls vision native.
  split; repeat split.
  - subst vision; rewrite vision_new_this; eauto.
  - apply vision_after_all_frame.
  - apply vision_after_all_frame.
  - subst native; rewrite native_new_this; eauto.
  - apply native_after_all_frame.
  - apply native_after_all_frame.
Qed.

(* ===================================================================== *)
(** * Further properties of the adapters *)
(* ===================================================================== *)

Section VisionSequences.
Context {World : Type}.
Variable dataSink : DataSink.t World.
Variable finder : FinderInterface.t World.
Variable screen : ScreenActionProvider.t World.
Variable screenReader : TextReader.t World.

Let bound : VisionAdapter.t :=
  VisionAdapter.mk (Some dataSink) (Some finder) (Some screen) (Some screenReader).

(** One operation on a bound adapter: the object stays, the world moves as
    the collaborator moves it. *)
Lemma vision_after_effect (i : VisionAdapter.Invocation)
  (s : VisionAdapter.State (World := World)) :
  this s = bound ->
  VisionAdapter.after i s =
  {| this := this s;
     world := vision_effect dataSink finder screen screenReader i (world s);
     assigned := assigned s |}.
Proof.
  intros H.
  assert (Hd : VisionAdapter.dataSink (this s) = Some dataSink) by (rewrite H; reflexivity).
  assert (Hf : VisionAdapter.finder (this s) = Some finder) by (rewrite H; reflexivity).
  assert (Hs : VisionAdapter.screen (this s) = Some screen) by (rewrite H; reflexivity).
  assert (Hr : VisionAdapter.screenReader (this s) = Some screenReader)
    by (rewrite H; reflexivity).
  destruct i; cbn [VisionAdapter.after vision_effect].
  - unfold VisionAdapter.grabScreen; rewrite (run_delegate _ _ _ s Hs); unfold call.
    destruct (ScreenActionProvider.grabScreen screen (world s)) as [[a | e] w]; reflexivity.
  - unfold VisionAdapter.grabScreenRegion.
    rewrite (run_delegate _ _ (fun p => ScreenActionProvider.grabScreenRegion p region) s Hs).
    unfold call.
    destruct (ScreenActionProvider.grabScreenRegion screen region (world s)) as [[a | e] w];
      reflexivity.
  - rewrite (findOnScreenRegion_run s matchRequest Hf); reflexivity.
  - unfold VisionAdapter.screenWidth; rewrite (run_delegate _ _ _ s Hs); unfold call.
    destruct (ScreenActionProvider.screenWidth screen (world s)) as [[a | e] w]; reflexivity.
  - unfold VisionAdapter.screenHeight; rewrite (run_delegate _ _ _ s Hs); unfold call.
    destruct (ScreenActionProvider.screenHeight screen (world s)) as [[a | e] w]; reflexivity.
  - unfold VisionAdapter.screenSize; rewrite (run_delegate _ _ _ s Hs); unfold call.
    destruct (ScreenActionProvider.screenSize screen (world s)) as [[a | e] w]; reflexivity.
  - unfold VisionAdapter.saveImage.
    rewrite (run_delegate _ _ (fun d => DataSink.store d image path) s Hd); unfold call.
    destruct (DataSink.store dataSink image path (world s)) as [[a | e] w]; reflexivity.
  - unfold VisionAdapter.readText, VisionAdapter.default_language; cbv zeta.
    rewrite (run_delegate _ _ (fun r => TextReader.readPage r image _) s Hr); unfold call.
    destruct (TextReader.readPage screenReader image _ (world s)) as [[a | e] w]; reflexivity.
  - unfold VisionAdapter.readWords, VisionAdapter.default_language; cbv zeta.
    rewrite (run_delegate _ _ (fun r => TextReader.readWords r image _) s Hr); unfold call.
    destruct (TextReader.readWords screenReader image _ (world s)) as [[a | e] w]; reflexivity.
Qed.

Lemma vision_after_all_effect (calls : list VisionAdapter.Invocation)
  (s : VisionAdapter.State (World := World)) :
  this s = bound ->
  VisionAdapter.after_all calls s =
  {| this := this s;
     world :=
       fold_left (fun w i => vision_effect dataSink finder screen screenReader i w)
         calls (world s);
     assigned := assigned s |}.
Proof.
  revert s; induction calls as [| i calls IH]; intros s H.
  - destruct s; reflexivity.
  - unfold VisionAdapter.after_all in *; cbn [fold_left].
    rewrite (vision_after_effect i s H).
    rewrite IH by exact H; reflexivity.
Qed.

End VisionSequences.

Section NativeSequences.
Context {World Point Key Button : Type}.
Variable clipboard : ClipboardActionProvider.t World.
Variable keyboard : KeyboardActionProvider.t World Key.
Variable mouse : MouseActionProvider.t World Point Button.

Let bound : NativeAdapter.t :=
  NativeAdapter.mk (Some clipboard) (Some keyboard) (Some mouse).

Let State : Type :=
  NativeAdapter.State (World := World) (Point := Point) (Key := Key) (Button := Button).

(** A delegating body moves the world as the collaborator moves it. *)
Lemma native_delegate_effect {C A} (f : NativeAdapter.t -> option C) (name : string)
  (m : C -> Call A) (c : C) (s : State) :
  f (this s) = Some c ->
  snd ((x <- read f name ;; call (m x)) s) =
  {| this := this s; world := snd (m c (world s)); assigned := assigned s |}.
Proof.
  intros H; rewrite (run_delegate f name m s H); unfold call.
  destruct (m c (world s)) as [[a | e] w]; reflexivity.
Qed.

Lemma native_after_effect (i : NativeAdapter.Invocation) (s : State) :
  this s = bound ->
  NativeAdapter.after i s =
  {| this := this s;
     world := native_effect clipboard keyboard mouse i (world s);
     assigned := assigned s |}.
Proof.
  intros H.
  assert (Hc : NativeAdapter.clipboard (this s) = Some clipboard) by (rewrite H; reflexivity).
  assert (Hk : NativeAdapter.keyboard (this s) = Some keyboard) by (rewrite H; reflexivity).
  assert (Hm : NativeAdapter.mouse (this s) = Some mouse) by (rewrite H; reflexivity).
  destruct i; cbn [NativeAdapter.after native_effect];
    first [ exact (native_delegate_effect _ _ _ s Hm)
          | exact (native_delegate_effect _ _ _ s Hk)
          | exact (native_delegate_effect _ _ _ s Hc) ].
Qed.

Lemma native_after_all_effect (calls : list NativeAdapter.Invocation) (s : State) :
  this s = bound ->
  NativeAdapter.after_all calls s =
  {| this := this s;
     world := fold_left (fun w i => native_effect clipboard keyboard mouse i w)
                calls (world s);
     assigned := assigned s |}.
Proof.
  revert s; induction calls as [| i calls IH]; intros s H.
  - destruct s; reflexivity.
  - unfold NativeAdapter.after_all in *; cbn [fold_left].
    rewrite (native_after_effect i s H).
    rewrite IH by exact H; reflexivity.
Qed.

End NativeSequences.

(** [or_default] does not look at the default when the record sets the
    collaborator. *)
Lemma or_default_agree {Config A} (config : option Config) (f : Config -> option A)
  (default default' : A) :
  agree_where_unset (configured config f) default default' ->
  or_default config f default = or_default config f default'.
Proof.
  unfold agree_where_unset, configured, or_default.
  destruct config as [c |]; [destruct (f c) |]; auto.
Qed.

(** X1.  A native adapter in use, whatever mouse provider it is bound to,
    configured or default: each of the twelve mouse operations is the
    operation of the same name of that provider on the same argument: same
    effect on the world, same completion, same deferred result.
    [setMouseDelay] returns synchronously, the others return the provider's
    deferred result. *)
Theorem native_mouse_operations_delegate :
  forall (World Point Key Button : Type)
    (ClipboardAction : ClipboardActionProvider.t World)
    (KeyboardAction : KeyboardActionProvider.t World Key)
    (MouseAction : MouseActionProvider.t World Point Button)
    (config : option NativeAdapter.NativeAdapterConfig) (w : World)
    (calls : list NativeAdapter.Invocation)
    (delay amount : number) (p : Point) (btn : Button),
    let s :=
      NativeAdapter.after_all calls
        (NativeAdapter.new ClipboardAction KeyboardAction MouseAction config w) in
    let mouse := or_default config NativeAdapter.cfg_mouse MouseAction in
    NativeAdapter.setMouseDelay delay s = call (MouseActionProvider.setMouseDelay mouse delay) s /\
    NativeAdapter.setMousePosition p s = call (MouseActionProvider.setMousePosition mouse p) s /\
    NativeAdapter.currentMousePosition s = call (MouseActionProvider.currentMousePosition mouse) s /\
    NativeAdapter.leftClick s = call (MouseActionProvider.leftClick mouse) s /\
    NativeAdapter.rightClick s = call (MouseActionProvider.rightClick mouse) s /\
    NativeAdapter.middleClick s = call (MouseActionProvider.middleClick mouse) s /\
    NativeAdapter.pressButton btn s = call (MouseActionProvider.pressButton mouse btn) s /\
    NativeAdapter.releaseButton btn s = call (MouseActionProvider.releaseButton mouse btn) s /\
    NativeAdapter.scrollUp amount s = call (MouseActionProvider.scrollUp mouse amount) s /\
    NativeAdapter.scrollDown amount s = call (MouseActionProvider.scrollDown mouse amount) s /\
    NativeAdapter.scrollLeft amount s = call (MouseActionProvider.scrollLeft mouse amount) s /\
    NativeAdapter.scrollRight amount s = call (MouseActionProvider.scrollRight mouse amount) s.
Proof.
  intros World Point Key Button CA KA MA config w calls delay amount p btn s mouse.
  assert (Hbound : NativeAdapter.mouse (this s) = Some mouse).
  { subst s; rewrite (proj1 (native_after_all_frame calls _)), native_new_this; reflexivity. }
  repeat split.
  - apply (run_delegate _ _ (fun m => MouseActionProvider.setMouseDelay m delay) s Hbound).
  - apply (run_delegate _ _ (fun m => MouseActionProvider.setMousePosition m p) s Hbound).
  - apply (run_delegate _ _ (fun m => MouseActionProvider.currentMousePosition m) s Hbound).
  - apply (run_delegate _ _ (fun m => MouseActionProvider.leftClick m) s Hbound).
  - apply (run_delegate _ _ (fun m => MouseActionProvider.rightClick m) s Hbound).
  - apply (run_delegate _ _ (fun m => MouseActionProvider.middleClick m) s Hbound).
  - apply (run_delegate _ _ (fun m => MouseActionProvider.pressButton m btn) s Hbound).
  - apply (run_delegate _ _ (fun m => MouseActionProvider.releaseButton m btn) s Hbound).
  - apply (run_delegate _ _ (fun m => MouseActionProvider.scrollUp m amount) s Hbound).
  - apply (run_delegate _ _ (fun m => MouseActionProvider.scrollDown m amount) s Hbound).
  - apply (run_delegate _ _ (fun m => MouseActionProvider.scrollLeft m amount) s Hbound).
  - apply (run_delegate _ _ (fun m => MouseActionProvider.scrollRight m amount) s Hbound).
Qed.

(** X2.  A native adapter in use, whatever keyboard provider it is bound to:
    [setKeyboardDelay], [type], [click], [pressKey] and [releaseKey] are the
    operations of the same name of that provider; the keys of the variadic
    operations are handed over all, in the order given. *)
Theorem native_keyboard_operations_delegate :
  forall (World Point Key Button : Type)
    (ClipboardAction : ClipboardActionProvider.t World)
    (KeyboardAction : KeyboardActionProvider.t World Key)
    (MouseAction : MouseActionProvider.t World Point Button)
    (config : option NativeAdapter.NativeAdapterConfig) (w : World)
    (calls : list NativeAdapter.Invocation)
    (delay : number) (input : string) (keys : list Key),
    let s :=
      NativeAdapter.after_all calls
        (NativeAdapter.new ClipboardAction KeyboardAction MouseAction config w) in
    let keyboard := or_default config NativeAdapter.cfg_keyboard KeyboardAction in
    NativeAdapter.setKeyboardDelay delay s =
      call (KeyboardActionProvider.setKeyboardDelay keyboard delay) s /\
    NativeAdapter.type input s = call (KeyboardActionProvider.type keyboard input) s /\
    NativeAdapter.click keys s = call (KeyboardActionProvider.click keyboard keys) s /\
    NativeAdapter.pressKey keys s = call (KeyboardActionProvider.pressKey keyboard keys) s /\
    NativeAdapter.releaseKey keys s = call (KeyboardActionProvider.releaseKey keyboard keys) s.
Proof.
  intros World Point Key Button CA KA MA config w calls delay input keys s keyboard.
  assert (Hbound : NativeAdapter.keyboard (this s) = Some keyboard).
  { subst s; rewrite (proj1 (native_after_all_frame calls _)), native_new_this; reflexivity. }
  repeat split.
  - apply (run_delegate _ _ (fun k => KeyboardActionProvider.setKeyboardDelay k delay) s Hbound).
  - apply (run_delegate _ _ (fun k => KeyboardActionProvider.type k input) s Hbound).
  - apply (run_delegate _ _ (fun k => KeyboardActionProvider.click k keys) s Hbound).
  - apply (run_delegate _ _ (fun k => KeyboardActionProvider.pressKey k keys) s Hbound).
  - apply (run_delegate _ _ (fun k => KeyboardActionProvider.releaseKey k keys) s Hbound).
Qed.

(** X3.  A native adapter in use, whatever clipboard provider it is bound
    to: [copy] and [paste] are [copy] and [paste] of that provider; the text
    to copy is handed over unchanged and the pasted text comes back
    unchanged. *)
Theorem native_clipboard_operations_delegate :
  forall (World Point Key Button : Type)
    (ClipboardAction : ClipboardActionProvider.t World)
    (KeyboardAction : KeyboardActionProvider.t World Key)
    (MouseAction : MouseActionProvider.t World Point Button)
    (config : option NativeAdapter.NativeAdapterConfig) (w : World)
    (calls : list NativeAdapter.Invocation) (text : string),
    let s :=
      NativeAdapter.after_all calls
        (NativeAdapter.new ClipboardAction KeyboardAction MouseAction config w) in
    let clipboard := or_default config NativeAdapter.cfg_clipboard ClipboardAction in
    NativeAdapter.copy text s = call (ClipboardActionProvider.copy clipboard text) s /\
    NativeAdapter.paste s = call (ClipboardActionProvider.paste clipboard) s.
Proof.
  intros World Point Key Button CA KA MA config w calls text s clipboard.
  assert (Hbound : NativeAdapter.clipboard (this s) = Some clipboard).
  { subst s; rewrite (proj1 (native_after_all_frame calls _)), native_new_this; reflexivity. }
  split.
  - apply (run_delegate _ _ (fun c => ClipboardActionProvider.copy c text) s Hbound).
  - apply (run_delegate _ _ (fun c => ClipboardActionProvider.paste c) s Hbound).
Qed.

(** X4.  Any sequence of operations on a native adapter leaves the world as
    the same sequence of provider operations leaves it, in the same order,
    and leaves the adapter as the constructor built it: the adapter adds no
    effect of its own, drops none, and an operation that throws does not
    keep the later ones from reaching their provider. *)
Theorem native_sequence_effect :
  forall (World Point Key Button : Type)
    (ClipboardAction : ClipboardActionProvider.t World)
    (KeyboardAction : KeyboardActionProvider.t World Key)
    (MouseAction : MouseActionProvider.t World Point Button)
    (config : option NativeAdapter.NativeAdapterConfig) (w : World)
    (calls : list NativeAdapter.Invocation),
    let adapter := NativeAdapter.new ClipboardAction KeyboardAction MouseAction config w in
    let clipboard := or_default config NativeAdapter.cfg_clipboard ClipboardAction in
    let keyboard := or_default config NativeAdapter.cfg_keyboard KeyboardAction in
    let mouse := or_default config NativeAdapter.cfg_mouse MouseAction in
    NativeAdapter.after_all calls adapter =
    {| this := this adapter;
       world := fold_left (fun w i => native_effect clipboard keyboard mouse i w) calls w;
       assigned := assigned adapter |}.
Proof.
  intros World Point Key Button CA KA MA config w calls adapter clipboard keyboard mouse.
  apply (native_after_all_effect (clipboard := clipboard) (keyboard := keyboard)
           (mouse := mouse) calls adapter).
  apply native_new_this.
Qed.

(** X5.  Any sequence of operations on a vision adapter leaves the world as
    the same sequence of collaborator operations leaves it, in the same
    order, [findOnScreenRegion] counting as one [findMatch] of the finder,
    and leaves the adapter as the constructor built it: nothing is cached,
    retried or skipped, whatever the operations return. *)
Theorem vision_sequence_effect :
  forall (World : Type)
    (ImageWriter : DataSink.t World) (TemplateMatchingFinder : FinderInterface.t World)
    (ScreenAction : ScreenActionProvider.t World) (TesseractReader : TextReader.t World)
    (config : option VisionAdapter.VisionAdapterConfig) (w : World)
    (calls : list VisionAdapter.Invocation),
    let adapter :=
      VisionAdapter.new ImageWriter TemplateMatchingFinder ScreenAction TesseractReader
        config w in
    let dataSink := or_default config VisionAdapter.cfg_dataSink ImageWriter in
    let finder := or_default config VisionAdapter.cfg_finder TemplateMatchingFinder in
    let screen := or_default config VisionAdapter.cfg_screen ScreenAction in
    let screenReader := or_default config VisionAdapter.cfg_screenReader TesseractReader in
    VisionAdapter.after_all calls adapter =
    {| this := this adapter;
       world := fold_left (fun w i => vision_effect dataSink finder screen screenReader i w)
                  calls w;
       assigned := assigned adapter |}.
Proof.
  intros World IW TMF SA TR config w calls adapter dataSink finder screen screenReader.
  apply (vision_after_all_effect (dataSink := dataSink) (finder := finder)
           (screen := screen) (screenReader := screenReader) calls adapter).
  apply vision_new_this.
Qed.

(** X6.  The production collaborators matter to a vision adapter only where
    the configuration record leaves a field unset: two choices of defaults
    that agree on the unset fields build the same adapter, so a record that
    sets all four fields builds an adapter in which no production
    collaborator takes part. *)
Theorem vision_defaults_only_where_unset :
  forall (World : Type)
    (ImageWriter ImageWriter' : DataSink.t World)
    (TemplateMatchingFinder TemplateMatchingFinder' : FinderInterface.t World)
    (ScreenAction ScreenAction' : ScreenActionProvider.t World)
    (TesseractReader TesseractReader' : TextReader.t World)
    (config : option VisionAdapter.VisionAdapterConfig) (w : World)
    (calls : list VisionAdapter.Invocation),
    agree_where_unset (configured config VisionAdapter.cfg_dataSink) ImageWriter ImageWriter' ->
    agree_where_unset (configured config VisionAdapter.cfg_finder)
      TemplateMatchingFinder TemplateMatchingFinder' ->
    agree_where_unset (configured config VisionAdapter.cfg_screen) ScreenAction ScreenAction' ->
    agree_where_unset (configured config VisionAdapter.cfg_screenReader)
      TesseractReader TesseractReader' ->
    VisionAdapter.after_all calls
      (VisionAdapter.new ImageWriter TemplateMatchingFinder ScreenAction TesseractReader
         config w) =
    VisionAdapter.after_all calls
      (VisionAdapter.new ImageWriter' TemplateMatchingFinder' ScreenAction' TesseractReader'
         config w).
Proof.
  intros World IW IW' TMF TMF' SA SA' TR TR' config w calls Hd Hf Hs Hr.
  f_equal.
  assert (Hnew : forall D1 D2 D3 D4,
             VisionAdapter.new D1 D2 D3 D4 config w =
             {| this := this (VisionAdapter.new D1 D2 D3 D4 config w);
                world := w;
                assigned := [VisionAdapter.F_dataSink; VisionAdapter.F_finder;
                             VisionAdapter.F_screen; VisionAdapter.F_screenReader] |})
    by reflexivity.
  rewrite (Hnew IW), (Hnew IW'), !vision_new_this.
  rewrite (or_default_agree _ _ Hd), (or_default_agree _ _ Hf),
          (or_default_agree _ _ Hs), (or_default_agree _ _ Hr).
  reflexivity.
Qed.

(** A record that leaves only the screen provider unset, under two choices
    of defaults with the same screen provider. *)
Lemma vision_defaults_only_where_unset_witness :
  VisionAdapter.after_all [VisionAdapter.GrabScreen]
    (VisionAdapter.new Doubles.sink Doubles.throwingFinder Doubles.screen
       Doubles.textReader (Some Doubles.config) []) =
  VisionAdapter.after_all [VisionAdapter.GrabScreen]
    (VisionAdapter.new Faulty.sink Doubles.rejectingFinder Doubles.screen
       Faulty.textReader (Some Doubles.config) []).
Proof.
  apply (@vision_defaults_only_where_unset Doubles.World
           Doubles.sink Faulty.sink Doubles.throwingFinder Doubles.rejectingFinder
           Doubles.screen Doubles.screen Doubles.textReader Faulty.textReader
           (Some Doubles.config) [] [VisionAdapter.GrabScreen]).
  - intros H; discriminate H.
  - intros H; discriminate H.
  - intros _; reflexivity.
  - intros H; discriminate H.
Defined.

(** X7.  The same for a native adapter: the production clipboard, keyboard
    and mouse matter only where the configuration record leaves the field
    unset. *)
Theorem native_defaults_only_where_unset :
  forall (World Point Key Button : Type)
    (ClipboardAction ClipboardAction' : ClipboardActionProvider.t World)
    (KeyboardAction KeyboardAction' : KeyboardActionProvider.t World Key)
    (MouseAction MouseAction' : MouseActionProvider.t World Point Button)
    (config : option NativeAdapter.NativeAdapterConfig) (w : World)
    (calls : list NativeAdapter.Invocation),
    agree_where_unset (configured config NativeAdapter.cfg_clipboard)
      ClipboardAction ClipboardAction' ->
    agree_where_unset (configured config NativeAdapter.cfg_keyboard)
      KeyboardAction KeyboardAction' ->
    agree_where_unset (configured config NativeAdapter.cfg_mouse) MouseAction MouseAction' ->
    NativeAdapter.after_all calls
      (NativeAdapter.new ClipboardAction KeyboardAction MouseAction config w) =
    NativeAdapter.after_all calls
      (NativeAdapter.new ClipboardAction' KeyboardAction' MouseAction' config w).
Proof.
  intros World Point Key Button CA CA' KA KA' MA MA' config w calls Hc Hk Hm.
  f_equal.
  assert (Hnew : forall D1 D2 D3,
             NativeAdapter.new D1 D2 D3 config w =
             {| this := this (NativeAdapter.new D1 D2 D3 config w);
                world := w;
                assigned := [NativeAdapter.F_clipboard; NativeAdapter.F_keyboard;
                             NativeAdapter.F_mouse] |})
    by reflexivity.
  rewrite (Hnew CA), (Hnew CA'), !native_new_this.
  rewrite (or_default_agree _ _ Hc), (or_default_agree _ _ Hk), (or_default_agree _ _ Hm).
  reflexivity.
Qed.

(** A record that sets the keyboard only, under two choices of the default
    keyboard. *)
Lemma native_defaults_only_where_unset_witness :
  NativeAdapter.after_all [NativeAdapter.Type_ "hi"]
    (NativeAdapter.new Doubles.clipboard Doubles.keyboard Doubles.mouse
       (Some (NativeAdapter.mkConfig None (Some Doubles.deadKeyboard) None)) []) =
  NativeAdapter.after_all [NativeAdapter.Type_ "hi"]
    (NativeAdapter.new Doubles.clipboard Doubles.deadKeyboard Doubles.mouse
       (Some (NativeAdapter.mkConfig None (Some Doubles.deadKeyboard) None)) []).
Proof.
  apply (@native_defaults_only_where_unset Doubles.World Doubles.Point Doubles.Key
           Doubles.Button Doubles.clipboard Doubles.clipboard Doubles.keyboard
           Doubles.deadKeyboard Doubles.mouse Doubles.mouse
           (Some (NativeAdapter.mkConfig None (Some Doubles.deadKeyboard) None)) []
           [NativeAdapter.Type_ "hi"]).
  - intros _; reflexivity.
  - intros H; discriminate H.
  - intros _; reflexivity.
Defined.

(** X8.  Only [findOnScreenRegion] shields its caller from a synchronous
    throw.  On an adapter in use, when the collaborator method behind
    [grabScreen], [grabScreenRegion], [screenWidth], [screenHeight],
    [screenSize], [saveImage], [readText] or [readWords] throws, the
    operation throws the same error synchronously and returns no deferred
    result, whereas a throwing [findMatch] makes [findOnScreenRegion] return
    a rejection. *)
Theorem vision_synchronous_throw_escapes :
  forall (World : Type)
    (ImageWriter : DataSink.t World) (TemplateMatchingFinder : FinderInterface.t World)
    (ScreenAction : ScreenActionProvider.t World) (TesseractReader : TextReader.t World)
    (config : option VisionAdapter.VisionAdapterConfig) (w : World)
    (calls : list VisionAdapter.Invocation)
    (region : Region) (image : Image) (path : string) (language : option Language)
    (matchRequest : ImageMatchRequest) (e : Error),
    let s :=
      VisionAdapter.after_all calls
        (VisionAdapter.new ImageWriter TemplateMatchingFinder ScreenAction TesseractReader
           config w) in
    let dataSink := or_default config VisionAdapter.cfg_dataSink ImageWriter in
    let finder := or_default config VisionAdapter.cfg_finder TemplateMatchingFinder in
    let screen := or_default config VisionAdapter.cfg_screen ScreenAction in
    let screenReader := or_default config VisionAdapter.cfg_screenReader TesseractReader in
    let tag := match language with Some l => l | None => ENG end in
    (fst (ScreenActionProvider.grabScreen screen (world s)) = Throws e ->
     fst (VisionAdapter.grabScreen s) = Throw e) /\
    (fst (ScreenActionProvider.grabScreenRegion screen region (world s)) = Throws e ->
     fst (VisionAdapter.grabScreenRegion region s) = Throw e) /\
    (fst (ScreenActionProvider.screenWidth screen (world s)) = Throws e ->
     fst (VisionAdapter.screenWidth s) = Throw e) /\
    (fst (ScreenActionProvider.screenHeight screen (world s)) = Throws e ->
     fst (VisionAdapter.screenHeight s) = Throw e) /\
    (fst (ScreenActionProvider.screenSize screen (world s)) = Throws e ->
     fst (VisionAdapter.screenSize s) = Throw e) /\
    (fst (DataSink.store dataSink image path (world s)) = Throws e ->
     fst (VisionAdapter.saveImage image path s) = Throw e) /\
    (fst (TextReader.readPage screenReader image tag (world s)) = Throws e ->
     fst (VisionAdapter.readText image language s) = Throw e) /\
    (fst (TextReader.readWords screenReader image tag (world s)) = Throws e ->
     fst (VisionAdapter.readWords image language s) = Throw e) /\
    (fst (FinderInterface.findMatch finder matchRequest (world s)) = Throws e ->
     fst (VisionAdapter.findOnScreenRegion matchRequest s) = Normal (Rejected e)).
Proof.
  intros World IW TMF SA TR config w calls region image path language request e
         s dataSink finder screen screenReader tag.
  assert (Hthis : this s = VisionAdapter.mk (Some dataSink) (Some finder) (Some screen)
                             (Some screenReader)).
  { subst s; rewrite vision_in_use, vision_new_this; reflexivity. }
  assert (Hd : VisionAdapter.dataSink (this s) = Some dataSink) by (rewrite Hthis; reflexivity).
  assert (Hf : VisionAdapter.finder (this s) = Some finder) by (rewrite Hthis; reflexivity).
  assert (Hs : VisionAdapter.screen (this s) = Some screen) by (rewrite Hthis; reflexivity).
  assert (Hr : VisionAdapter.screenReader (this s) = Some screenReader)
    by (rewrite Hthis; reflexivity).
  assert (Hcall : forall A (c : Call A),
             fst (c (world s)) = Throws e ->
             fst (call (Obj := VisionAdapter.t) (Field := VisionAdapter.Field) c s) = Throw e).
  { intros A c H; unfold call; destruct (c (world s)) as [[a | e'] w0]; cbn in *;
      congruence. }
  repeat split; intros H.
  - unfold VisionAdapter.grabScreen; rewrite (run_delegate _ _ _ s Hs); auto.
  - unfold VisionAdapter.grabScreenRegion.
    rewrite (run_delegate _ _ (fun p => ScreenActionProvider.grabScreenRegion p region) s Hs).
    auto.
  - unfold VisionAdapter.screenWidth; rewrite (run_delegate _ _ _ s Hs); auto.
  - unfold VisionAdapter.screenHeight; rewrite (run_delegate _ _ _ s Hs); auto.
  - unfold VisionAdapter.screenSize; rewrite (run_delegate _ _ _ s Hs); auto.
  - unfold VisionAdapter.saveImage.
    rewrite (run_delegate _ _ (fun d => DataSink.store d image path) s Hd); auto.
  - unfold VisionAdapter.readText, VisionAdapter.default_language; cbv zeta.
    rewrite (run_delegate _ _ (fun r => TextReader.readPage r image _) s Hr); auto.
  - unfold VisionAdapter.readWords, VisionAdapter.default_language; cbv zeta.
    rewrite (run_delegate _ _ (fun r => TextReader.readWords r image _) s Hr); auto.
  - rewrite (findOnScreenRegion_run s request Hf); cbn [fst]; rewrite H; reflexivity.
Qed.

(** A sink and a finder that throw: [saveImage] throws, [findOnScreenRegion]
    returns a rejection. *)
Lemma vision_synchronous_throw_escapes_witness :
  fst (VisionAdapter.saveImage Doubles.icon "/tmp/icon.png"
         (Doubles.adapter (Some Faulty.config)))
    = Throw (OtherError "store") /\
  fst (VisionAdapter.findOnScreenRegion
         (mkImageMatchRequest Doubles.icon Doubles.desktop 0.9)
         (Doubles.adapter (Some Faulty.config)))
    = Normal (Rejected (OtherError "synchronous")).
Proof.
  split.
  - apply (proj1 (proj2 (proj2 (proj2 (proj2 (proj2
             (@vision_synchronous_throw_escapes Doubles.World Doubles.sink
                Doubles.throwingFinder Doubles.screen Doubles.textReader
                (Some Faulty.config) [] [] Doubles.desktop Doubles.icon "/tmp/icon.png"
                None (mkImageMatchRequest Doubles.icon Doubles.desktop 0.9)
                (OtherError "store")))))))).
    reflexivity.
  - apply (proj2 (proj2 (proj2 (proj2 (proj2 (proj2 (proj2 (proj2
             (@vision_synchronous_throw_escapes Doubles.World Doubles.sink
                Doubles.throwingFinder Doubles.screen Doubles.textReader
                (Some Faulty.config) [] [] Doubles.desktop Doubles.icon "/tmp/icon.png"
                None (mkImageMatchRequest Doubles.icon Doubles.desktop 0.9)
                (OtherError "synchronous")))))))))).
    reflexivity.
Defined.
